(** * Stock ledger of INVENTORY.py

    A shallow embedding of the item catalog ([items] table), the movement
    ledger ([stock_movements] table) and the Python helpers that read and
    write them: [create_item], [update_item], [delete_item_record],
    [log_stock_movement], [adjust_stock], [get_stock_movements], the
    "Add New Item" flow of the Item Management page, the stock increase
    and dispatch flows and the low-stock filter of the Dashboard /
    Reporting pages; then the users and suppliers helpers.

    The database is modelled as a record holding both tables (in rowid
    order) and the two AUTOINCREMENT counters.  Every [conn.commit()] is a
    durable point: functions that commit more than once are modelled by the
    list of states that become durable, one per commit. *)

From Stdlib Require Import List String ZArith QArith Lia Bool.
From Stdlib Require Import Sorting.Sorted Sorting.Permutation.
Import ListNotations.
Open Scope string_scope.
Open Scope Z_scope.
Open Scope list_scope.

(** ** Values bound to [?] placeholders

    sqlite3 binds a Python [int] as an INTEGER.  The pages take item ids
    from a pandas row ([items_df[...].iloc[0]["id"]]), which is a
    [numpy.int64]: not an [int], but an object with the buffer protocol,
    which sqlite3 binds as a BLOB (its eight bytes).  In SQLite a BLOB never
    compares equal to an INTEGER. *)
Inductive sql_value :=
  | SqlInt (n : nat)
  | SqlInt64Blob (n : nat).   (* the 8-byte BLOB of numpy.int64 n *)

Coercion SqlInt : nat >-> sql_value.
Bind Scope nat_scope with sql_value.

(** [WHERE id=?] and [ON sm.item_id = i.id]: the value [v] against the
    INTEGER id [n] of a row. *)
Definition id_matches (v : sql_value) (n : nat) : bool :=
  match v with
  | SqlInt k => Nat.eqb n k
  | SqlInt64Blob _ => false
  end.

(** ** Rows *)

(** A row of the [items] table.  [unit_price] is a REAL column, carried but
    never computed with here. *)
Record item := mkItem {
  item_id : nat;            (* INTEGER PRIMARY KEY AUTOINCREMENT *)
  item_code : string;       (* TEXT UNIQUE *)
  name : string;
  category : string;
  unit_price : Q;
  min_stock : Z;
  quantity : Z;             (* INTEGER DEFAULT 0 *)
  description : string
}.

(** A row of the [stock_movements] table; [ts] is the value of
    [datetime('now','localtime')] at insertion, as seconds. *)
Record movement := mkMovement {
  mv_id : nat;              (* INTEGER PRIMARY KEY AUTOINCREMENT *)
  mv_item_id : sql_value;   (* item_id, FOREIGN KEY not enforced by sqlite3 *)
  movement_type : string;   (* PURCHASE, DISPATCH, ADJUSTMENT, INITIAL *)
  mv_quantity : Z;          (* positive for in, negative for out *)
  party : string;
  note : string;
  ts : nat
}.

(** The database file: both tables and the [sqlite_sequence] counters. *)
Record db := mkDb {
  items : list item;
  movements : list movement;
  next_item_id : nat;
  next_mv_id : nat
}.

(** A freshly created database: AUTOINCREMENT starts at 1. *)
Definition empty_db : db := mkDb [] [] 1 1.

(** Python helpers return [(ok, msg)]. *)
Definition result := (bool * string)%type.

(** ** Item management helpers *)

(** [SELECT ... FROM items WHERE id=?]. *)
Definition find_item (d : db) (i : sql_value) : option item :=
  find (fun it => id_matches i (item_id it)) (items d).

Definition code_exists (d : db) (code : string) : bool :=
  existsb (fun it => String.eqb (item_code it) code) (items d).

(** [create_item]: one INSERT; the UNIQUE constraint on [item_code] raises
    [IntegrityError], the statement is rolled back and nothing changes. *)
Definition create_item (d : db) (code nm cat : string) (price : Q)
    (ms qty : Z) (descr : string) : db * result :=
  if code_exists d code then (d, (false, "Item code must be unique"))
  else
    (mkDb (items d ++ [mkItem (next_item_id d) code nm cat price ms qty descr])
          (movements d) (S (next_item_id d)) (next_mv_id d),
     (true, "Item created")).

(** [update_item] and [delete_item_record] are modelled for an [int] id.
    [update_item]: [UPDATE items SET name=?, category=?, unit_price=?,
    min_stock=?, quantity=?, description=? WHERE id=?]. *)
Definition update_row (i : nat) (nm cat : string) (price : Q) (ms qty : Z)
    (descr : string) (it : item) : item :=
  if Nat.eqb (item_id it) i
  then mkItem (item_id it) (item_code it) nm cat price ms qty descr
  else it.

Definition update_item (d : db) (i : nat) (nm cat : string) (price : Q)
    (ms qty : Z) (descr : string) : db :=
  mkDb (map (update_row i nm cat price ms qty descr) (items d))
       (movements d) (next_item_id d) (next_mv_id d).

(** [delete_item_record]: [DELETE FROM items WHERE id=?]; movements stay. *)
Definition delete_item_record (d : db) (i : nat) : db :=
  mkDb (filter (fun it => negb (Nat.eqb (item_id it) i)) (items d))
       (movements d) (next_item_id d) (next_mv_id d).

(** ** Stock management helpers *)

(** [log_stock_movement]: one INSERT into [stock_movements]; [now] is the
    clock read by the column default of [ts]. *)
Definition log_stock_movement (d : db) (i : sql_value) (mt : string) (qty : Z)
    (pty nt : string) (now : nat) : db :=
  mkDb (items d)
       (movements d ++ [mkMovement (next_mv_id d) i mt qty pty nt now])
       (next_item_id d) (S (next_mv_id d)).

(** [UPDATE items SET quantity=? WHERE id=?]. *)
Definition set_row_quantity (i : sql_value) (q : Z) (it : item) : item :=
  if id_matches i (item_id it)
  then mkItem (item_id it) (item_code it) (name it) (category it)
              (unit_price it) (min_stock it) q (description it)
  else it.

Definition set_item_quantity (d : db) (i : sql_value) (q : Z) : db :=
  mkDb (map (set_row_quantity i q) (items d))
       (movements d) (next_item_id d) (next_mv_id d).

(** [adjust_stock], commit by commit: the UPDATE is committed and its
    connection closed, then [log_stock_movement] opens a second connection
    and commits the INSERT.  The list holds the state made durable by each
    commit, in order. *)
Definition adjust_stock_commits (d : db) (i : sql_value) (delta_qty : Z)
    (mt pty nt : string) (now : nat) : list db * result :=
  match find_item d i with
  | None => ([], (false, "Item not found"))
  | Some row =>
      let new_qty := quantity row + delta_qty in
      if new_qty <? 0
      then ([], (false, "Operation would result in negative stock"))
      else
        let d1 := set_item_quantity d i new_qty in
        let d2 := log_stock_movement d1 i mt delta_qty pty nt now in
        ([d1; d2], (true, "Stock updated"))
  end.

(** The state after the last commit, when [adjust_stock] runs to the end. *)
Definition adjust_stock (d : db) (i : sql_value) (delta_qty : Z)
    (mt pty nt : string) (now : nat) : db * result :=
  let (cs, r) := adjust_stock_commits d i delta_qty mt pty nt now in
  (last cs d, r).

(** ** The "Add New Item" flow of the Item Management page

    [quantity] comes from [st.number_input(min_value=0, step=1)], hence a
    [nat].  [admin] is the outcome of [require_admin()]. *)
Definition find_item_by_code (d : db) (code : string) : option item :=
  find (fun it => String.eqb (item_code it) code) (items d).

Definition create_flow_commits (d : db) (admin : bool) (code nm cat : string)
    (price : Q) (ms : Z) (qty : nat) (descr : string) (now : nat)
    : list db * option result :=
  if negb admin then ([], None)                    (* st.stop() *)
  else if orb (String.eqb code "") (String.eqb nm "")
  then ([], Some (false, "Item code and name are required."))
  else
    let (d1, r) := create_item d code nm cat price ms (Z.of_nat qty) descr in
    if fst r then
      if (0 <? qty)%nat then
        (* items_df[items_df["item_code"] == item_code].iloc[0] *)
        match find_item_by_code d1 code with
        | Some new_item =>
            (* item_id=new_item["id"], a numpy.int64 *)
            ([d1; log_stock_movement d1 (SqlInt64Blob (item_id new_item)) "INITIAL"
                    (Z.of_nat qty) "SYSTEM" "Initial stock" now], Some r)
        | None => ([d1], None)                     (* IndexError *)
        end
      else ([d1], Some r)
    else ([], Some r).

Definition create_flow (d : db) (admin : bool) (code nm cat : string)
    (price : Q) (ms : Z) (qty : nat) (descr : string) (now : nat)
    : db * option result :=
  let (cs, r) := create_flow_commits d admin code nm cat price ms qty descr now in
  (last cs d, r).

(** ** Reads *)

(** [SELECT sm.id, i.item_code, i.name, sm.movement_type, sm.quantity,
    sm.party, sm.note, sm.ts FROM stock_movements sm JOIN items i
    ON sm.item_id = i.id]. *)
Record hist_row := mkRow {
  row_id : nat;
  row_item_code : string;
  row_name : string;
  row_type : string;
  row_quantity : Z;
  row_party : string;
  row_note : string;
  row_ts : nat
}.

Definition mk_row (m : movement) (it : item) : hist_row :=
  mkRow (mv_id m) (item_code it) (name it) (movement_type m)
        (mv_quantity m) (party m) (note m) (ts m).

Definition join_rows (d : db) : list hist_row :=
  flat_map (fun m =>
      map (mk_row m)
          (filter (fun it => id_matches (mv_item_id m) (item_id it)) (items d)))
    (movements d).

(** [ORDER BY sm.ts DESC LIMIT ?]: SQL fixes the order by [ts] only; rows
    with equal [ts] may come in any order.  [get_stock_movements d limit rs]
    holds when [rs] is a result the query may return. *)
Definition ts_desc (a b : hist_row) : Prop := (row_ts b <= row_ts a)%nat.

Definition get_stock_movements (d : db) (limit : nat) (rs : list hist_row)
    : Prop :=
  exists sorted,
    Permutation (join_rows d) sorted /\ Sorted ts_desc sorted /\
    rs = firstn limit sorted.

(** [items_df[items_df["quantity"] <= items_df["min_stock"]]]. *)
Definition low_stock_df (its : list item) : list item :=
  filter (fun it => quantity it <=? min_stock it) its.

(** ** The ledger invariant *)

Definition ledger_sum (d : db) (i : nat) : Z :=
  fold_right Z.add 0
    (map mv_quantity
       (filter (fun m => id_matches (mv_item_id m) i) (movements d))).

Definition ledger_consistent (d : db) : Prop :=
  Forall (fun it => quantity it = ledger_sum d (item_id it)) (items d).

Definition ledger_consistentb (d : db) : bool :=
  forallb (fun it => Z.eqb (quantity it) (ledger_sum d (item_id it))) (items d).

(** ** Sessions: sequences of calls

    The ids in [OpAdjust], [OpUpdate] and [OpDelete] are Python [int]s: the
    helpers as any caller passing an [int] reaches them.  The pages pass
    numpy ids (see the Stock Management and Dispatch flows below), with which
    these helpers write nothing, so the sessions cover more than the pages
    can do. *)

Inductive op :=
  | OpCreate (admin : bool) (code nm cat : string) (price : Q) (ms : Z)
             (qty : nat) (descr : string) (now : nat)
  | OpAdjust (i : nat) (delta_qty : Z) (mt pty nt : string) (now : nat)
  | OpUpdate (i : nat) (nm cat : string) (price : Q) (ms : Z) (qty : nat)
             (descr : string)
  | OpDelete (i : nat).

Definition exec (d : db) (o : op) : db :=
  match o with
  | OpCreate admin code nm cat price ms qty descr now =>
      fst (create_flow d admin code nm cat price ms qty descr now)
  | OpAdjust i delta mt pty nt now => fst (adjust_stock d i delta mt pty nt now)
  | OpUpdate i nm cat price ms qty descr =>
      update_item d i nm cat price ms (Z.of_nat qty) descr
  | OpDelete i => delete_item_record d i
  end.

Definition run (d : db) (os : list op) : db := fold_left exec os d.

Definition create_or_adjust (o : op) : bool :=
  match o with
  | OpCreate _ _ _ _ _ _ _ _ _ | OpAdjust _ _ _ _ _ _ => true
  | _ => false
  end.

(** Ids handed out by AUTOINCREMENT are below the counter. *)
Definition ids_below (d : db) : Prop :=
  (forall it, In it (items d) -> (item_id it < next_item_id d)%nat) /\
  (forall m, In m (movements d) ->
     match mv_item_id m with
     | SqlInt n => (n < next_item_id d)%nat
     | SqlInt64Blob _ => True
     end).

(** Stock on hand is never negative. *)
Definition quantities_nonneg (d : db) : Prop :=
  forall it, In it (items d) -> 0 <= quantity it.

(** ** The Stock Management and Dispatch / Sales pages *)

(** "Apply Stock Increase": the page reads [items_df] and takes
    [row = items_df[items_df["item_code"] == selected_code].iloc[0]] before
    the button; [delta] comes from [st.number_input(min_value=0, step=1)];
    [admin] is [require_admin()].  [row["id"]] is a numpy.int64. *)
Definition stock_increase_flow (d : db) (admin : bool) (selected_code : string)
    (delta : nat) (mt pty nt : string) (now : nat) : db * option result :=
  match find_item_by_code d selected_code with
  | None => (d, None)                              (* IndexError *)
  | Some row =>
      if negb admin then (d, None)                 (* st.stop() *)
      else if (delta <=? 0)%nat
      then (d, Some (false, "Quantity must be greater than zero."))
      else
        let (d', r) := adjust_stock d (SqlInt64Blob (item_id row))
                          (Z.of_nat delta) mt pty nt now in
        (d', Some r)
  end.

(** "Dispatch Item": [delta = -int(qty)], no [require_admin()] call; the
    id is again [row["id"]], a numpy.int64. *)
Definition dispatch_flow (d : db) (selected_code : string) (qty : nat)
    (customer reference nt : string) (now : nat) : db * option result :=
  match find_item_by_code d selected_code with
  | None => (d, None)                              (* IndexError *)
  | Some row =>
      let (d', r) := adjust_stock d (SqlInt64Blob (item_id row)) (- Z.of_nat qty)
                       "DISPATCH" customer
                       (String.append reference (String.append " - " nt)) now in
      (d', Some r)
  end.

(** ** Users (User Management & Authentication) *)

Record user := mkUser {
  user_id : nat;            (* INTEGER PRIMARY KEY AUTOINCREMENT *)
  username : string;        (* TEXT UNIQUE *)
  password : string;        (* hash_password(password) *)
  role : string
}.

Record users_db := mkUsers {
  users : list user;
  next_user_id : nat
}.

Definition empty_users : users_db := mkUsers [] 1.

(** [UPDATE users SET role=? WHERE id=?]. *)
Definition update_user_role (u : users_db) (uid : nat) (new_role : string)
    : users_db :=
  mkUsers (map (fun r => if Nat.eqb (user_id r) uid
                         then mkUser (user_id r) (username r) (password r) new_role
                         else r) (users u))
          (next_user_id u).

(** [DELETE FROM users WHERE id=?]. *)
Definition delete_user (u : users_db) (uid : nat) : users_db :=
  mkUsers (filter (fun r => negb (Nat.eqb (user_id r) uid)) (users u))
          (next_user_id u).

Section Passwords.

(** [hash_password] is SHA-256 of the UTF-8 bytes, as a hex string; it is
    kept abstract. *)
Variable hash_password : string -> string.

(** [add_user]: INSERT, [IntegrityError] on a taken username. *)
Definition add_user (u : users_db) (nm pw rl : string) : users_db * result :=
  if existsb (fun r => String.eqb (username r) nm) (users u)
  then (u, (false, "Username already exists"))
  else (mkUsers (users u ++ [mkUser (next_user_id u) nm (hash_password pw) rl])
                (S (next_user_id u)),
        (true, "User created")).

(** [login_user]: [SELECT id, username, role FROM users WHERE username=?
    AND password=?], then [fetchone()]. *)
Definition login_user (u : users_db) (nm pw : string)
    : option (nat * string * string) :=
  option_map (fun r => (user_id r, username r, role r))
    (find (fun r => andb (String.eqb (username r) nm)
                         (String.eqb (password r) (hash_password pw)))
          (users u)).

(** [UPDATE users SET password=? WHERE id=?]. *)
Definition reset_user_password (u : users_db) (uid : nat) (new_pw : string)
    : users_db :=
  mkUsers (map (fun r => if Nat.eqb (user_id r) uid
                         then mkUser (user_id r) (username r)
                                     (hash_password new_pw) (role r)
                         else r) (users u))
          (next_user_id u).

(** The users part of [create_tables]: when the count of users with
    role admin is 0, [INSERT OR IGNORE] the user admin / admin.  The insert
    is ignored when the username "admin" is taken; the AUTOINCREMENT id it
    drew is still recorded in [sqlite_sequence]. *)
Definition create_tables_users (u : users_db) : users_db :=
  if existsb (fun r => String.eqb (role r) "admin") (users u) then u
  else if existsb (fun r => String.eqb (username r) "admin") (users u)
  then mkUsers (users u) (S (next_user_id u))
  else mkUsers (users u ++ [mkUser (next_user_id u) "admin"
                              (hash_password "admin") "admin"])
               (S (next_user_id u)).

(** Calls that change the users table. *)
Inductive user_op :=
  | UAdd (nm pw rl : string)
  | URole (uid : nat) (rl : string)
  | UReset (uid : nat) (pw : string)
  | UDelete (uid : nat)
  | UCreateTables.

Definition user_exec (u : users_db) (o : user_op) : users_db :=
  match o with
  | UAdd nm pw rl => fst (add_user u nm pw rl)
  | URole uid rl => update_user_role u uid rl
  | UReset uid pw => reset_user_password u uid pw
  | UDelete uid => delete_user u uid
  | UCreateTables => create_tables_users u
  end.

Definition user_run (u : users_db) (os : list user_op) : users_db :=
  fold_left user_exec os u.

End Passwords.

(** ** Suppliers (Supplier Management) *)

Record supplier := mkSupplier {
  supplier_id : nat;        (* INTEGER PRIMARY KEY AUTOINCREMENT *)
  sname : string;           (* name TEXT UNIQUE *)
  contact_person : string;
  phone : string;
  email : string;
  address : string;
  product_categories : string;
  notes : string;
  rating : Q                (* REAL *)
}.

Record suppliers_db := mkSuppliers {
  suppliers : list supplier;
  next_supplier_id : nat
}.

(** [create_supplier]: INSERT, [IntegrityError] on a taken name. *)
Definition create_supplier (s : suppliers_db) (nm cp ph em ad pc nt : string)
    (rt : Q) : suppliers_db * result :=
  if existsb (fun r => String.eqb (sname r) nm) (suppliers s)
  then (s, (false, "Supplier name must be unique"))
  else (mkSuppliers (suppliers s ++
                       [mkSupplier (next_supplier_id s) nm cp ph em ad pc nt rt])
                    (S (next_supplier_id s)),
        (true, "Supplier created")).

(** [update_supplier]: [UPDATE suppliers SET name=?, ... WHERE id=?].  The
    UNIQUE constraint on [name] fails when the updated row takes the name
    of another row; [update_supplier] does not catch the [IntegrityError],
    which is [None] here, and nothing is written. *)
Definition update_supplier (s : suppliers_db) (sid : nat)
    (nm cp ph em ad pc nt : string) (rt : Q) : option suppliers_db :=
  if andb (existsb (fun r => Nat.eqb (supplier_id r) sid) (suppliers s))
          (existsb (fun r => andb (negb (Nat.eqb (supplier_id r) sid))
                                  (String.eqb (sname r) nm)) (suppliers s))
  then None
  else Some (mkSuppliers
               (map (fun r => if Nat.eqb (supplier_id r) sid
                              then mkSupplier (supplier_id r) nm cp ph em ad pc nt rt
                              else r) (suppliers s))
               (next_supplier_id s)).

(** * Proofs *)

(** ** Ledger sums *)

Lemma fold_sum_acc (l : list Z) (a : Z) :
  fold_right Z.add a l = fold_right Z.add 0 l + a.
Proof. induction l as [|x l IH]; simpl; [lia | rewrite IH; lia]. Qed.

Lemma ledger_sum_log d i mt q pty nt now j :
  ledger_sum (log_stock_movement d i mt q pty nt now) j =
  ledger_sum d j + (if id_matches i j then q else 0).
Proof.
  unfold ledger_sum, log_stock_movement; simpl.
  rewrite filter_app, map_app, fold_right_app; simpl.
  destruct (id_matches i j); simpl; rewrite fold_sum_acc; lia.
Qed.

Lemma ledger_sum_set_quantity d i q j :
  ledger_sum (set_item_quantity d i q) j = ledger_sum d j.
Proof. reflexivity. Qed.

Lemma ledger_sum_unused (ms : list movement) (j : nat) :
  (forall m, In m ms -> id_matches (mv_item_id m) j = false) ->
  fold_right Z.add 0
    (map mv_quantity (filter (fun m => id_matches (mv_item_id m) j) ms)) = 0.
Proof.
  induction ms as [|m ms IH]; intros H; simpl; [reflexivity|].
  rewrite (H m (or_introl eq_refl)).
  apply IH; intros m' Hm'; apply H; right; exact Hm'.
Qed.

Lemma ledger_sum_fresh d :
  ids_below d -> ledger_sum d (next_item_id d) = 0.
Proof.
  intros [_ Hm]; unfold ledger_sum; apply ledger_sum_unused.
  intros m Hin; specialize (Hm m Hin).
  destruct (mv_item_id m) as [k|k]; simpl; [apply Nat.eqb_neq; lia | reflexivity].
Qed.

(** ** Lookups *)

Lemma find_item_spec d i it :
  find_item d i = Some it -> In it (items d) /\ id_matches i (item_id it) = true.
Proof.
  unfold find_item; intros H; apply find_some in H as [Hin Heq].
  split; [exact Hin | exact Heq].
Qed.

Lemma id_matches_int (k n : nat) : id_matches k n = true <-> n = k.
Proof. simpl; apply Nat.eqb_eq. Qed.

Lemma find_none_of_existsb {A} (f : A -> bool) (l : list A) :
  existsb f l = false -> find f l = None.
Proof.
  induction l as [|x l IH]; simpl; [reflexivity|].
  destruct (f x); simpl; [discriminate | exact IH].
Qed.

Lemma find_app_none {A} (f : A -> bool) (l1 l2 : list A) :
  find f l1 = None -> find f (l1 ++ l2) = find f l2.
Proof.
  induction l1 as [|x l1 IH]; simpl; [reflexivity|].
  destruct (f x); [discriminate | exact IH].
Qed.

(** The row a successful [create_item] inserts is the one the create flow
    finds again by its code. *)
Lemma create_item_found d code nm cat price ms qty descr d1 r :
  create_item d code nm cat price ms qty descr = (d1, r) -> fst r = true ->
  find_item_by_code d1 code =
    Some (mkItem (next_item_id d) code nm cat price ms qty descr).
Proof.
  unfold create_item; destruct (code_exists d code) eqn:E;
    intros H; inversion H; subst; simpl; [discriminate|].
  intros _; unfold find_item_by_code; simpl.
  rewrite (find_app_none _ _ _ (find_none_of_existsb _ _ E)); simpl.
  rewrite String.eqb_refl; reflexivity.
Qed.

Lemma set_row_quantity_id i q it : item_id (set_row_quantity i q it) = item_id it.
Proof. unfold set_row_quantity; destruct (id_matches i (item_id it)); reflexivity. Qed.

Lemma ids_below_empty : ids_below empty_db.
Proof. split; intros ? []. Qed.

Lemma ledger_consistentb_spec d :
  ledger_consistentb d = true <-> ledger_consistent d.
Proof.
  unfold ledger_consistentb, ledger_consistent.
  rewrite forallb_forall, Forall_forall; split; intros H it Hin;
    specialize (H it Hin); [apply Z.eqb_eq; exact H | apply Z.eqb_eq; exact H].
Qed.

Lemma find_item_set_quantity d i q j :
  find_item (set_item_quantity d i q) j =
  option_map (set_row_quantity i q) (find_item d j).
Proof.
  unfold find_item, set_item_quantity; simpl.
  induction (items d) as [|it l IH]; simpl; [reflexivity|].
  rewrite set_row_quantity_id; destruct (id_matches j (item_id it)); [reflexivity|].
  exact IH.
Qed.

(** ** C2 *)

(** C2 (as the code does it): a failed [adjust_stock] commits nothing.  A
    successful one commits twice.  The first commit holds the item's new
    quantity [quantity + delta], the other rows and the ledger untouched, so
    for [delta <> 0] an item whose quantity matched its ledger sum no
    longer does.  The second commit appends the movement alone; the state
    after it is the one a completed call leaves. *)
Theorem adjust_stock_two_commits d i delta mt pty nt now :
  (fst (snd (adjust_stock_commits d i delta mt pty nt now)) = false ->
   fst (adjust_stock_commits d i delta mt pty nt now) = []) /\
  (forall row, find_item d i = Some row -> 0 <= quantity row + delta ->
   exists d1 d2,
     fst (adjust_stock_commits d i delta mt pty nt now) = [d1; d2] /\
     option_map quantity (find_item d1 i) = Some (quantity row + delta) /\
     (forall j : nat, j <> item_id row -> find_item d1 j = find_item d j) /\
     movements d1 = movements d /\
     (delta <> 0 -> quantity row = ledger_sum d (item_id row) ->
      option_map quantity (find_item d1 i) <> Some (ledger_sum d1 (item_id row))) /\
     items d2 = items d1 /\
     movements d2 = movements d ++ [mkMovement (next_mv_id d) i mt delta pty nt now] /\
     fst (adjust_stock d i delta mt pty nt now) = d2).
Proof.
  split.
  - unfold adjust_stock_commits.
    destruct (find_item d i) as [row|]; [|reflexivity].
    destruct (quantity row + delta <? 0); [reflexivity | discriminate].
  - intros row F N.
    pose proof (find_item_spec _ _ _ F) as [Hin Hid].
    apply Z.ltb_ge in N.
    unfold adjust_stock, adjust_stock_commits; rewrite F, N.
    set (d1 := set_item_quantity d i (quantity row + delta)).
    exists d1, (log_stock_movement d1 i mt delta pty nt now).
    split; [reflexivity|].
    assert (Q : option_map quantity (find_item d1 i) = Some (quantity row + delta)).
    { unfold d1; rewrite find_item_set_quantity, F; simpl.
      unfold set_row_quantity; rewrite Hid; reflexivity. }
    split; [exact Q|]; split.
    + intros j Hj; unfold d1; rewrite find_item_set_quantity.
      destruct (find_item d j) as [it|] eqn:G; [|reflexivity]; simpl.
      apply find_item_spec in G as [_ Gid]; simpl in Gid; apply Nat.eqb_eq in Gid.
      unfold set_row_quantity; destruct (id_matches i (item_id it)) eqn:M;
        [|reflexivity].
      exfalso; apply Hj; rewrite <- Gid; symmetry.
      destruct i as [k|k]; simpl in *; [|discriminate].
      apply Nat.eqb_eq in M, Hid; congruence.
    + split; [reflexivity|]; split; [|split; [reflexivity|split; reflexivity]].
      intros Hd Hq; rewrite Q; unfold d1; rewrite ledger_sum_set_quantity.
      intros E; injection E; lia.
Qed.

Lemma adjust_stock_two_commits_witness :
  let d0 := run empty_db [OpCreate true "ITM-0001" "Widget" "Tools" 1 5 0 "" 0] in
  exists d1 d2,
    fst (adjust_stock_commits d0 1 10 "PURCHASE" "Acme" "" 1) = [d1; d2] /\
    option_map quantity (find_item d1 1) = Some 10 /\
    option_map quantity (find_item d1 1) <> Some (ledger_sum d1 1).
Proof.
  cbv zeta.
  destruct (proj2 (adjust_stock_two_commits
              (run empty_db [OpCreate true "ITM-0001" "Widget" "Tools" 1 5 0 "" 0])
              1 10 "PURCHASE" "Acme" "" 1)
              (mkItem 1 "ITM-0001" "Widget" "Tools" 1 5 0 "")
              ltac:(vm_compute; reflexivity) ltac:(vm_compute; discriminate))
    as [d1 [d2 [H1 [H2 [_ [_ [H5 _]]]]]]].
  exists d1, d2; split; [exact H1|]; split; [exact H2|].
  apply H5; [discriminate | vm_compute; reflexivity].
Defined.

(** C2 fails: from a consistent database, a successful [adjust_stock]
    makes durable, after its first commit, a state whose quantity and
    ledger disagree. *)
Lemma adjust_stock_not_atomic :
  let d0 := run empty_db [OpCreate true "ITM-0001" "Widget" "Tools" 1 5 0 "" 0] in
  ledger_consistent d0 /\
  fst (adjust_stock_commits d0 1 10 "PURCHASE" "Acme" "" 1) <> [] /\
  exists d1, In d1 (fst (adjust_stock_commits d0 1 10 "PURCHASE" "Acme" "" 1)) /\
    ~ ledger_consistent d1.
Proof.
  cbv zeta; split; [apply ledger_consistentb_spec; vm_compute; reflexivity|].
  split; [vm_compute; discriminate|].
  eexists; split; [vm_compute; left; reflexivity|].
  rewrite <- ledger_consistentb_spec; vm_compute; discriminate.
Qed.

(** ** C3 *)

(** C3: when the item exists and [quantity + delta < 0], [adjust_stock]
    reports the negative-stock error, commits nothing and leaves the
    database as it was. *)
Theorem adjust_stock_negative_no_mutation d i delta mt pty nt now row :
  find_item d i = Some row -> quantity row + delta < 0 ->
  adjust_stock_commits d i delta mt pty nt now =
    ([], (false, "Operation would result in negative stock")) /\
  adjust_stock d i delta mt pty nt now =
    (d, (false, "Operation would result in negative stock")).
Proof.
  intros F N; apply Z.ltb_lt in N.
  unfold adjust_stock, adjust_stock_commits; rewrite F, N; split; reflexivity.
Qed.

Lemma adjust_stock_negative_no_mutation_witness :
  let d0 := run empty_db [OpCreate true "ITM-0001" "Widget" "Tools" 1 5 10 "" 0] in
  let row := mkItem 1 "ITM-0001" "Widget" "Tools" 1 5 10 "" in
  find_item d0 1 = Some row /\ quantity row + (-12) < 0 /\
  adjust_stock d0 1 (-12) "DISPATCH" "Cust1" "" 2 =
    (d0, (false, "Operation would result in negative stock")).
Proof.
  cbv zeta; split; [vm_compute; reflexivity|].
  split; [vm_compute; reflexivity|].
  apply (adjust_stock_negative_no_mutation _ 1 (-12) "DISPATCH" "Cust1" "" 2
           (mkItem 1 "ITM-0001" "Widget" "Tools" 1 5 10 ""));
    [vm_compute; reflexivity | vm_compute; reflexivity].
Defined.

(** ** What each call can do to the tables *)

Lemma create_flow_shape d admin code nm cat price ms qty descr now :
  let d' := fst (create_flow d admin code nm cat price ms qty descr now) in
  d' = d \/
  (items d' = items d ++
     [mkItem (next_item_id d) code nm cat price ms (Z.of_nat qty) descr] /\
   next_item_id d' = S (next_item_id d) /\
   forall m, In m (movements d') ->
     In m (movements d) \/ mv_item_id m = SqlInt64Blob (next_item_id d)).
Proof.
  cbv zeta; unfold create_flow, create_flow_commits.
  destruct (negb admin); [left; reflexivity|].
  destruct (String.eqb code "" || String.eqb nm ""); [left; reflexivity|].
  destruct (create_item d code nm cat price ms (Z.of_nat qty) descr)
    as [d1 r] eqn:C.
  pose proof (create_item_found _ _ _ _ _ _ _ _ _ _ C) as Hfound.
  unfold create_item in C.
  destruct (code_exists d code); inversion C; subst; clear C;
    [left; reflexivity|].
  simpl in Hfound; specialize (Hfound eq_refl).
  destruct (0 <? qty)%nat.
  - rewrite Hfound; simpl; right; split; [reflexivity|split; [reflexivity|]].
    intros m Hin; apply in_app_or in Hin as [Hin|[<-|[]]]; [left; exact Hin|].
    right; reflexivity.
  - simpl; right; split; [reflexivity|split; [reflexivity|]].
    intros m Hin; left; exact Hin.
Qed.

Lemma adjust_stock_shape d i delta mt pty nt now :
  let d' := fst (adjust_stock d i delta mt pty nt now) in
  d' = d \/
  exists row, find_item d i = Some row /\ 0 <= quantity row + delta /\
    items d' = map (set_row_quantity i (quantity row + delta)) (items d) /\
    next_item_id d' = next_item_id d /\
    forall m, In m (movements d') -> In m (movements d) \/ mv_item_id m = i.
Proof.
  cbv zeta; unfold adjust_stock, adjust_stock_commits.
  destruct (find_item d i) as [row|] eqn:F; [|left; reflexivity].
  destruct (quantity row + delta <? 0) eqn:N; [left; reflexivity|].
  right; exists row; apply Z.ltb_ge in N; simpl.
  split; [reflexivity|split; [lia|split; [reflexivity|split; [reflexivity|]]]].
  intros m Hin; apply in_app_or in Hin as [Hin|[<-|[]]]; [left; exact Hin|].
  right; reflexivity.
Qed.

Lemma exec_nonneg d o : quantities_nonneg d -> quantities_nonneg (exec d o).
Proof.
  intros H; destruct o; simpl.
  - destruct (create_flow_shape d admin code nm cat price ms qty descr now)
      as [E|[E _]]; [rewrite E; exact H|].
    intros it Hin; rewrite E in Hin; apply in_app_or in Hin as [Hin|[<-|[]]];
      [apply H; exact Hin | simpl; lia].
  - destruct (adjust_stock_shape d i delta_qty mt pty nt now)
      as [E|[row [_ [Hq [E _]]]]]; [rewrite E; exact H|].
    intros it Hin; rewrite E in Hin; apply in_map_iff in Hin as [it0 [<- Hin]].
    unfold set_row_quantity; destruct (id_matches (SqlInt i) (item_id it0));
      [simpl; exact Hq | apply H; exact Hin].
  - intros it Hin; simpl in Hin; apply in_map_iff in Hin as [it0 [<- Hin]].
    unfold update_row; destruct (Nat.eqb (item_id it0) i);
      [simpl; lia | apply H; exact Hin].
  - intros it Hin; simpl in Hin; apply filter_In in Hin as [Hin _].
    apply H; exact Hin.
Qed.

Lemma run_nonneg os d : quantities_nonneg d -> quantities_nonneg (run d os).
Proof.
  revert d; induction os as [|o os IH]; intros d H; simpl; [exact H|].
  apply IH, exec_nonneg, H.
Qed.

Lemma reachable_nonneg os : quantities_nonneg (run empty_db os).
Proof. apply run_nonneg; intros ? []. Qed.

(** ** C10 *)

Lemma set_row_quantity_same i row :
  set_row_quantity i (quantity row) row = row.
Proof.
  unfold set_row_quantity; destruct (id_matches i (item_id row));
    [destruct row|]; reflexivity.
Qed.

(** C10: in every database the sessions reach, [adjust_stock] fails
    exactly when the id has no row or [quantity + delta < 0]; for an
    existing item and [delta = 0] it succeeds, appends a movement of
    quantity 0 and the item keeps its row. *)
Theorem adjust_stock_fails_iff os i delta mt pty nt now :
  let d := run empty_db os in
  (fst (snd (adjust_stock d i delta mt pty nt now)) = false <->
   find_item d i = None \/
   exists row, find_item d i = Some row /\ quantity row + delta < 0) /\
  (forall row, find_item d i = Some row ->
   snd (adjust_stock d i 0 mt pty nt now) = (true, "Stock updated") /\
   movements (fst (adjust_stock d i 0 mt pty nt now)) =
     movements d ++ [mkMovement (next_mv_id d) i mt 0 pty nt now] /\
   find_item (fst (adjust_stock d i 0 mt pty nt now)) i = Some row).
Proof.
  cbv zeta; set (d := run empty_db os); split.
  - unfold adjust_stock, adjust_stock_commits.
    destruct (find_item d i) as [row|] eqn:F.
    + destruct (quantity row + delta <? 0) eqn:N; cbn [fst snd].
      * apply Z.ltb_lt in N.
        split; [intros _; right; exists row; split; [reflexivity | exact N] | reflexivity].
      * apply Z.ltb_ge in N; split; [discriminate|].
        intros [H|[row' [H1 H2]]]; [discriminate|].
        injection H1 as <-; lia.
    + cbn [fst snd]; split; [intros _; left; reflexivity | reflexivity].
  - intros row F.
    pose proof (find_item_spec _ _ _ F) as [Hin Hid].
    pose proof (reachable_nonneg os row Hin) as Hnn.
    assert (N : (quantity row + 0 <? 0) = false) by (apply Z.ltb_ge; lia).
    unfold adjust_stock, adjust_stock_commits; rewrite F, N; simpl.
    split; [reflexivity|]; split; [reflexivity|].
    change (find_item (set_item_quantity d i (quantity row + 0)) i = Some row).
    rewrite find_item_set_quantity, F; simpl.
    rewrite Z.add_0_r, set_row_quantity_same; reflexivity.
Qed.

(** ** C6 *)

(** C6: [create_item] with a code some item already has fails with the
    uniqueness error and leaves the database unchanged. *)
Theorem create_item_duplicate_code d it code nm cat price ms qty descr :
  In it (items d) -> item_code it = code ->
  create_item d code nm cat price ms qty descr =
    (d, (false, "Item code must be unique")).
Proof.
  intros Hin Hc; unfold create_item.
  assert (E : code_exists d code = true).
  { apply existsb_exists; exists it; split; [exact Hin|].
    rewrite Hc; apply String.eqb_refl. }
  rewrite E; reflexivity.
Qed.

Lemma create_item_duplicate_code_witness :
  let d1 := fst (create_item empty_db "ITM-0001" "Widget" "Tools" 1 5 0 "") in
  In (mkItem 1 "ITM-0001" "Widget" "Tools" 1 5 0 "") (items d1) /\
  create_item d1 "ITM-0001" "Gadget" "Misc" 2 3 4 "" =
    (d1, (false, "Item code must be unique")).
Proof.
  cbv zeta; split; [simpl; left; reflexivity|].
  apply (create_item_duplicate_code _ (mkItem 1 "ITM-0001" "Widget" "Tools" 1 5 0 ""));
    [simpl; left; reflexivity | reflexivity].
Defined.

(** ** C4 *)

(** C4 fails: [update_item] writes the [quantity] column. *)
Lemma update_item_changes_quantity :
  let d0 := run empty_db [OpCreate true "ITM-0001" "Widget" "Tools" 1 5 0 "" 0] in
  find_item d0 1 = Some (mkItem 1 "ITM-0001" "Widget" "Tools" 1 5 0 "") /\
  find_item (update_item d0 1 "Widget" "Tools" 1 5 7 "") 1 =
    Some (mkItem 1 "ITM-0001" "Widget" "Tools" 1 5 7 "").
Proof. cbv zeta; split; vm_compute; reflexivity. Qed.

(** C4 (as the code does it): [update_item] keeps every row's [id] and
    [item_code] and the ledger; the rows with the given id get the supplied
    name, category, unit_price, min_stock, quantity and description, with no
    movement logged; other rows are untouched. *)
Theorem update_item_frame d i nm cat price ms qty descr k it :
  nth_error (items d) k = Some it ->
  let d' := update_item d i nm cat price ms qty descr in
  movements d' = movements d /\
  exists it', nth_error (items d') k = Some it' /\
    item_id it' = item_id it /\ item_code it' = item_code it /\
    (item_id it = i ->
       name it' = nm /\ category it' = cat /\ unit_price it' = price /\
       min_stock it' = ms /\ quantity it' = qty /\ description it' = descr) /\
    (item_id it <> i -> it' = it).
Proof.
  intros H; cbv zeta; split; [reflexivity|].
  exists (update_row i nm cat price ms qty descr it).
  split; [simpl; rewrite nth_error_map, H; reflexivity|].
  unfold update_row; destruct (Nat.eqb_spec (item_id it) i) as [E|E]; simpl.
  - split; [reflexivity|]; split; [reflexivity|]; split.
    + intros _; repeat split.
    + intros C; contradiction.
  - split; [reflexivity|]; split; [reflexivity|]; split.
    + intros C; contradiction.
    + intros _; reflexivity.
Qed.

Lemma update_item_frame_witness :
  let d0 := run empty_db [OpCreate true "ITM-0001" "Widget" "Tools" 1 5 0 "" 0] in
  nth_error (items d0) 0 = Some (mkItem 1 "ITM-0001" "Widget" "Tools" 1 5 0 "") /\
  (let d' := update_item d0 1 "Widget" "Tools" 1 5 7 "" in
   movements d' = movements d0 /\
   exists it', nth_error (items d') 0 = Some it' /\
    item_id it' = 1%nat /\ item_code it' = "ITM-0001" /\
    (1%nat = 1%nat ->
       name it' = "Widget" /\ category it' = "Tools" /\ unit_price it' = 1%Q /\
       min_stock it' = 5 /\ quantity it' = 7 /\ description it' = "") /\
    (1%nat <> 1%nat -> it' = mkItem 1 "ITM-0001" "Widget" "Tools" 1 5 0 "")).
Proof.
  cbv zeta; split; [vm_compute; reflexivity|].
  apply (update_item_frame _ 1 "Widget" "Tools" 1 5 7 "" 0
           (mkItem 1 "ITM-0001" "Widget" "Tools" 1 5 0 "")).
  vm_compute; reflexivity.
Defined.

Lemma adjust_stock_fails_iff_witness :
  let d := run empty_db [OpCreate true "ITM-0001" "Widget" "Tools" 1 5 4 "" 0] in
  find_item d 1 = Some (mkItem 1 "ITM-0001" "Widget" "Tools" 1 5 4 "") /\
  snd (adjust_stock d 1 0 "ADJUSTMENT" "" "" 1) = (true, "Stock updated") /\
  movements (fst (adjust_stock d 1 0 "ADJUSTMENT" "" "" 1)) =
    movements d ++ [mkMovement (next_mv_id d) 1 "ADJUSTMENT" 0 "" "" 1] /\
  find_item (fst (adjust_stock d 1 0 "ADJUSTMENT" "" "" 1)) 1 =
    Some (mkItem 1 "ITM-0001" "Widget" "Tools" 1 5 4 "").
Proof.
  cbv zeta; split; [vm_compute; reflexivity|].
  apply (proj2 (adjust_stock_fails_iff
                  [OpCreate true "ITM-0001" "Widget" "Tools" 1 5 4 "" 0]
                  1 0 "ADJUSTMENT" "" "" 1)
           (mkItem 1 "ITM-0001" "Widget" "Tools" 1 5 4 "")).
  vm_compute; reflexivity.
Defined.

(** ** C5 *)

(** C5 fails: the create flow with initial quantity 3 commits the new item
    first, alone; that durable state holds an item of quantity 3 with no
    movement in the ledger. *)
Lemma create_flow_initial_not_atomic :
  let '(cs, r) :=
    create_flow_commits empty_db true "ITM-0001" "Widget" "Tools" 1 5 3 "" 0 in
  r = Some (true, "Item created") /\
  exists d1, In d1 cs /\
    exists it, In it (items d1) /\ quantity it = 3 /\
      ledger_sum d1 (item_id it) = 0.
Proof.
  vm_compute; split; [reflexivity|].
  eexists; split; [left; reflexivity|].
  eexists; split; [left; reflexivity|]; split; reflexivity.
Qed.

(** C5 (as the code does it): for a new code, a non-empty code and name and
    an initial quantity [q > 0], [create_item] alone inserts the item with
    quantity [q] and records no movement.  The create flow commits that state
    first, then, in a second commit, one further movement: type INITIAL,
    quantity exactly [q], party SYSTEM, note "Initial stock", and nothing
    else.  (Which item its [item_id] designates is left open here.) *)
Theorem create_flow_initial_movement d code nm cat price ms qty descr now :
  code_exists d code = false -> String.eqb code "" = false ->
  String.eqb nm "" = false -> (0 < qty)%nat ->
  let d1 := fst (create_item d code nm cat price ms (Z.of_nat qty) descr) in
  movements d1 = movements d /\
  items d1 = items d ++
    [mkItem (next_item_id d) code nm cat price ms (Z.of_nat qty) descr] /\
  exists v d2,
    create_flow_commits d true code nm cat price ms qty descr now =
      ([d1; d2], Some (true, "Item created")) /\
    items d2 = items d1 /\
    movements d2 = movements d1 ++
      [mkMovement (next_mv_id d1) v "INITIAL" (Z.of_nat qty) "SYSTEM"
         "Initial stock" now].
Proof.
  intros E Hc Hn Hq; cbv zeta.
  destruct (create_item d code nm cat price ms (Z.of_nat qty) descr)
    as [d1 r] eqn:C.
  pose proof (create_item_found _ _ _ _ _ _ _ _ _ _ C) as Hfound.
  unfold create_item in C; rewrite E in C; inversion C; subst; clear C.
  simpl in Hfound; specialize (Hfound eq_refl).
  split; [reflexivity|]; split; [reflexivity|].
  exists (SqlInt64Blob (next_item_id d)); eexists; split.
  - unfold create_flow_commits, create_item; simpl negb.
    rewrite Hc, Hn, E; simpl orb.
    cbv iota beta.
    apply Nat.ltb_lt in Hq; rewrite Hq.
    rewrite Hfound.
    reflexivity.
  - split; reflexivity.
Qed.

Lemma create_flow_initial_movement_witness :
  items (fst (create_item empty_db "ITM-0001" "Widget" "Tools" 1 5 3 "")) =
    [mkItem 1 "ITM-0001" "Widget" "Tools" 1 5 3 ""].
Proof.
  exact (proj1 (proj2 (create_flow_initial_movement empty_db "ITM-0001"
           "Widget" "Tools" 1 5 3 "" 0 eq_refl eq_refl eq_refl
           (ltac:(lia) : (0 < 3)%nat)))).
Defined.

(** ** C8 *)

(** C8: the low-stock table keeps exactly the items with
    [quantity <= min_stock]: quantity 5 with threshold 5 is kept, quantity 6
    with threshold 5 is not. *)
Theorem low_stock_df_spec :
  (forall its it,
     In it (low_stock_df its) <-> In it its /\ quantity it <= min_stock it) /\
  In (mkItem 1 "ITM-0001" "A" "" 1 5 5 "")
     (low_stock_df [mkItem 1 "ITM-0001" "A" "" 1 5 5 "";
                    mkItem 2 "ITM-0002" "B" "" 1 5 6 ""]) /\
  ~ In (mkItem 2 "ITM-0002" "B" "" 1 5 6 "")
     (low_stock_df [mkItem 1 "ITM-0001" "A" "" 1 5 5 "";
                    mkItem 2 "ITM-0002" "B" "" 1 5 6 ""]).
Proof.
  split; [|split].
  - intros its it; unfold low_stock_df; rewrite filter_In, Z.leb_le.
    reflexivity.
  - simpl; left; reflexivity.
  - simpl; intros [H|[]]; discriminate H.
Qed.

(** ** C7 *)

Lemma ts_desc_trans a b c : ts_desc a b -> ts_desc b c -> ts_desc a c.
Proof. unfold ts_desc; lia. Qed.

Lemma sorted_firstn n (l : list hist_row) :
  Sorted ts_desc l -> Sorted ts_desc (firstn n l).
Proof.
  revert n; induction l as [|a l IH]; intros n H.
  - destruct n; constructor.
  - destruct n as [|n]; [constructor|]; simpl.
    apply Sorted_inv in H as [Hl Hh].
    constructor; [apply IH; exact Hl|].
    destruct l as [|b l]; [destruct n; constructor|].
    destruct n; [constructor|]; simpl; constructor.
    inversion Hh; assumption.
Qed.

Lemma strongly_sorted_unique (l1 l2 : list hist_row) :
  StronglySorted ts_desc l1 -> StronglySorted ts_desc l2 ->
  Permutation l1 l2 -> NoDup (map row_ts l1) -> l1 = l2.
Proof.
  revert l2; induction l1 as [|a l1 IH]; intros l2 S1 S2 P N.
  - symmetry; apply Permutation_nil; exact P.
  - destruct l2 as [|b l2].
    + apply Permutation_sym, Permutation_nil in P; discriminate P.
    + apply StronglySorted_inv in S1 as [S1 F1].
      apply StronglySorted_inv in S2 as [S2 F2].
      simpl in N; inversion N as [|? ? Nin N']; subst.
      assert (E : a = b).
      { assert (Ha : In a (b :: l2)) by (apply (Permutation_in _ P); left; auto).
        assert (Hb : In b (a :: l1))
          by (apply (Permutation_in _ (Permutation_sym P)); left; auto).
        destruct Ha as [Ha|Ha]; [symmetry; exact Ha|].
        destruct Hb as [Hb|Hb]; [exact Hb|].
        rewrite Forall_forall in F1, F2.
        specialize (F1 b Hb); specialize (F2 a Ha); unfold ts_desc in *.
        exfalso; apply Nin.
        replace (row_ts a) with (row_ts b) by lia.
        apply in_map; exact Hb. }
      subst b; f_equal.
      apply IH; [exact S1 | exact S2 | | exact N'].
      apply Permutation_cons_inv in P; exact P.
Qed.

(** C7 fails: the query orders by [ts] only, so two movements logged in the
    same second may come back in increasing [id] order. *)
Lemma get_stock_movements_tie_ascending :
  let d := run empty_db
             [OpCreate true "ITM-0001" "Widget" "Tools" 1 5 0 "" 0;
              OpAdjust 1 10 "PURCHASE" "Acme" "" 100;
              OpAdjust 1 (-3) "DISPATCH" "Cust1" "" 100] in
  get_stock_movements d 10 (join_rows d) /\
  map row_id (join_rows d) = [1; 2]%nat /\
  map row_ts (join_rows d) = [100; 100]%nat.
Proof.
  cbv zeta; split; [|split; vm_compute; reflexivity].
  exists (join_rows (run empty_db
             [OpCreate true "ITM-0001" "Widget" "Tools" 1 5 0 "" 0;
              OpAdjust 1 10 "PURCHASE" "Acme" "" 100;
              OpAdjust 1 (-3) "DISPATCH" "Cust1" "" 100])).
  split; [apply Permutation_refl|]; split; [|vm_compute; reflexivity].
  vm_compute; repeat constructor.
Qed.

(** C7 (as the code does it): every result of [get_stock_movements] is in
    non-increasing [ts] order; rows with equal [ts] are in no fixed order.
    When the only movements are M1, M2, M3 of one existing item, logged in
    that order with strictly increasing [ts], and [limit >= 3], the only
    result is [M3, M2, M1]. *)
Theorem get_stock_movements_ts_desc d limit it m1 m2 m3 :
  (forall rs, get_stock_movements d limit rs -> Sorted ts_desc rs) /\
  (filter (fun x => Nat.eqb (item_id x) (item_id it)) (items d) = [it] ->
   movements d = [m1; m2; m3] ->
   mv_item_id m1 = item_id it -> mv_item_id m2 = item_id it ->
   mv_item_id m3 = item_id it ->
   (ts m1 < ts m2)%nat -> (ts m2 < ts m3)%nat -> (3 <= limit)%nat ->
   forall rs, get_stock_movements d limit rs <->
     rs = [mk_row m3 it; mk_row m2 it; mk_row m1 it]).
Proof.
  split.
  - intros rs [sorted [_ [Hs ->]]]; apply sorted_firstn; exact Hs.
  - intros Hit Hm H1 H2 H3 T12 T23 Hl rs.
    assert (J : join_rows d = [mk_row m1 it; mk_row m2 it; mk_row m3 it]).
    { unfold join_rows; rewrite Hm; simpl; rewrite H1, H2, H3; simpl.
      rewrite Hit; reflexivity. }
    assert (SR : Sorted ts_desc [mk_row m3 it; mk_row m2 it; mk_row m1 it]).
    { repeat constructor; unfold ts_desc; simpl; lia. }
    assert (PR : Permutation (join_rows d)
                   [mk_row m3 it; mk_row m2 it; mk_row m1 it]).
    { rewrite J; apply (Permutation_rev [mk_row m1 it; mk_row m2 it; mk_row m3 it]). }
    split.
    + intros [sorted [P [Hs ->]]].
      assert (E : sorted = [mk_row m3 it; mk_row m2 it; mk_row m1 it]).
      { apply strongly_sorted_unique.
        - apply Sorted_StronglySorted; [exact ts_desc_trans | exact Hs].
        - apply Sorted_StronglySorted; [exact ts_desc_trans | exact SR].
        - apply (Permutation_trans (Permutation_sym P) PR).
        - apply (Permutation_NoDup (Permutation_map row_ts
                   (Permutation_trans (Permutation_sym PR) P))).
          simpl; repeat constructor; simpl; lia. }
      rewrite E; do 3 (destruct limit as [|limit]; [lia|]); simpl; rewrite firstn_nil; reflexivity.
    + intros ->; exists [mk_row m3 it; mk_row m2 it; mk_row m1 it].
      split; [exact PR|]; split; [exact SR|].
      do 3 (destruct limit as [|limit]; [lia|]); simpl; rewrite firstn_nil; reflexivity.
Qed.

Lemma get_stock_movements_ts_desc_witness :
  get_stock_movements
    (run empty_db
       [OpCreate true "ITM-0001" "Widget" "Tools" 1 5 0 "" 0;
        OpAdjust 1 10 "PURCHASE" "Acme" "" 1;
        OpAdjust 1 (-3) "DISPATCH" "Cust1" "" 2;
        OpAdjust 1 5 "PURCHASE" "Acme" "" 3])
    10
    [mk_row (mkMovement 3 1 "PURCHASE" 5 "Acme" "" 3)
            (mkItem 1 "ITM-0001" "Widget" "Tools" 1 5 12 "");
     mk_row (mkMovement 2 1 "DISPATCH" (-3) "Cust1" "" 2)
            (mkItem 1 "ITM-0001" "Widget" "Tools" 1 5 12 "");
     mk_row (mkMovement 1 1 "PURCHASE" 10 "Acme" "" 1)
            (mkItem 1 "ITM-0001" "Widget" "Tools" 1 5 12 "")].
Proof.
  apply (proj2 (get_stock_movements_ts_desc
    (run empty_db
       [OpCreate true "ITM-0001" "Widget" "Tools" 1 5 0 "" 0;
        OpAdjust 1 10 "PURCHASE" "Acme" "" 1;
        OpAdjust 1 (-3) "DISPATCH" "Cust1" "" 2;
        OpAdjust 1 5 "PURCHASE" "Acme" "" 3])
    10
    (mkItem 1 "ITM-0001" "Widget" "Tools" 1 5 12 "")
    (mkMovement 1 1 "PURCHASE" 10 "Acme" "" 1)
    (mkMovement 2 1 "DISPATCH" (-3) "Cust1" "" 2)
    (mkMovement 3 1 "PURCHASE" 5 "Acme" "" 3)));
    try (vm_compute; reflexivity); simpl; lia.
Defined.

(** ** C9 *)

Lemma update_row_id i nm cat price ms qty descr it :
  item_id (update_row i nm cat price ms qty descr it) = item_id it.
Proof. unfold update_row; destruct (Nat.eqb (item_id it) i); reflexivity. Qed.

(** Every call keeps the rows it does not touch, adds rows only with the
    next AUTOINCREMENT id and only appends to the ledger. *)
Lemma exec_frame d o :
  ids_below d ->
  ids_below (exec d o) /\
  (next_item_id d <= next_item_id (exec d o))%nat /\
  (forall it', In it' (items (exec d o)) ->
     (exists it, In it (items d) /\ item_id it = item_id it') \/
     item_id it' = next_item_id d) /\
  (forall m, In m (movements d) -> In m (movements (exec d o))).
Proof.
  intros [Hi Hm]; destruct o; simpl.
  - destruct (create_flow_shape d admin code nm cat price ms qty descr now)
      as [E|[Ei [En Em]]].
    + rewrite E; split; [split; assumption|]; split; [lia|].
      split; [intros it' Hin; left; exists it'; split; [exact Hin | reflexivity]|].
      intros m Hin; exact Hin.
    + rewrite Ei, En; split; [split|]; [| |split; [lia|split]].
      * intros it Hin; rewrite Ei in Hin; apply in_app_or in Hin as [Hin|[<-|[]]];
          [specialize (Hi it Hin); lia | simpl; lia].
      * rewrite En; intros m Hin; apply Em in Hin as [Hin|E'];
          [specialize (Hm m Hin); destruct (mv_item_id m); [lia | exact I]
          | rewrite E'; exact I].
      * intros it' Hin; apply in_app_or in Hin as [Hin|[<-|[]]];
          [left; exists it'; split; [exact Hin | reflexivity] | right; reflexivity].
      * intros m Hin; unfold create_flow, create_flow_commits.
        destruct (negb admin); [exact Hin|].
        destruct (String.eqb code "" || String.eqb nm ""); [exact Hin|].
        unfold create_item; destruct (code_exists d code); [exact Hin|]; simpl.
        destruct (0 <? qty)%nat; [|exact Hin].
        destruct (find_item_by_code _ code); simpl; [|exact Hin].
        apply in_or_app; left; exact Hin.
  - destruct (adjust_stock_shape d i delta_qty mt pty nt now)
      as [E|[row [F [_ [Ei [En Em]]]]]].
    + rewrite E; split; [split; assumption|]; split; [lia|].
      split; [intros it' Hin; left; exists it'; split; [exact Hin | reflexivity]|].
      intros m Hin; exact Hin.
    + apply find_item_spec in F as [Hrow Hid].
      rewrite Ei, En; split; [split|]; [| |split; [lia|split]].
      * intros it Hin; rewrite Ei in Hin; apply in_map_iff in Hin as [it0 [<- Hin]].
        rewrite set_row_quantity_id, En; apply Hi; exact Hin.
      * rewrite En; intros m Hin; apply Em in Hin as [Hin|E'];
          [apply Hm; exact Hin | rewrite E'].
        apply id_matches_int in Hid; rewrite <- Hid; apply Hi; exact Hrow.
      * intros it' Hin; apply in_map_iff in Hin as [it0 [<- Hin]].
        left; exists it0; split; [exact Hin | symmetry; apply set_row_quantity_id].
      * intros m Hin; unfold adjust_stock, adjust_stock_commits.
        destruct (find_item d i); [|exact Hin].
        destruct (quantity i0 + delta_qty <? 0); [exact Hin|]; simpl.
        apply in_or_app; left; exact Hin.
  - split; [split|]; simpl; [| |split; [lia|split]].
    + intros it Hin; apply in_map_iff in Hin as [it0 [<- Hin]].
      rewrite update_row_id; apply Hi; exact Hin.
    + exact Hm.
    + intros it' Hin; apply in_map_iff in Hin as [it0 [<- Hin]].
      left; exists it0; split; [exact Hin | symmetry; apply update_row_id].
    + intros m Hin; exact Hin.
  - split; [split|]; simpl; [| |split; [lia|split]].
    + intros it Hin; apply filter_In in Hin as [Hin _]; apply Hi; exact Hin.
    + exact Hm.
    + intros it' Hin; apply filter_In in Hin as [Hin _].
      left; exists it'; split; [exact Hin | reflexivity].
    + intros m Hin; exact Hin.
Qed.

Lemma run_ids_below os d : ids_below d -> ids_below (run d os).
Proof.
  revert d; induction os as [|o os IH]; intros d H; simpl; [exact H|].
  apply IH, (exec_frame d o H).
Qed.

(** An id no row has and AUTOINCREMENT has already passed is never used
    again; the ledger only grows. *)
Lemma run_id_retired os d j :
  ids_below d -> (j < next_item_id d)%nat ->
  (forall it, In it (items d) -> item_id it <> j) ->
  (forall it, In it (items (run d os)) -> item_id it <> j) /\
  (forall m, In m (movements d) -> In m (movements (run d os))).
Proof.
  revert d; induction os as [|o os IH]; intros d Hb Hj Ha; simpl.
  - split; [exact Ha | intros m Hin; exact Hin].
  - destruct (exec_frame d o Hb) as [Hb' [Hn [Hit Hmv]]].
    destruct (IH (exec d o) Hb') as [IH1 IH2]; [lia| |].
    + intros it' Hin; destruct (Hit it' Hin) as [[it [Hin0 <-]]|E];
        [apply Ha; exact Hin0 | lia].
    + split; [exact IH1|]; intros m Hin; apply IH2, Hmv; exact Hin.
Qed.

Lemma in_firstn_in {A} n (l : list A) x : In x (firstn n l) -> In x l.
Proof.
  intros H; rewrite <- (firstn_skipn n l); apply in_or_app; left; exact H.
Qed.

(** C9: after [delete_item_record] removes an item of a reachable
    database, its movements stay in the ledger, and in every later state
    each row [get_stock_movements] can return comes, through the join, from
    a movement of an item still present, never from the deleted item. *)
Theorem deleted_item_history_hidden pre it os :
  In it (items (run empty_db pre)) ->
  let d' := delete_item_record (run empty_db pre) (item_id it) in
  movements d' = movements (run empty_db pre) /\
  (forall m, In m (movements d') -> In m (movements (run d' os))) /\
  forall limit rs, get_stock_movements (run d' os) limit rs ->
    forall r, In r rs ->
      exists m it', In m (movements (run d' os)) /\
        In it' (items (run d' os)) /\ mv_item_id m = item_id it' /\
        mv_item_id m <> item_id it /\ r = mk_row m it'.
Proof.
  intros Hin; cbv zeta.
  set (d := run empty_db pre).
  assert (Hb : ids_below d) by (apply run_ids_below, ids_below_empty).
  set (d' := delete_item_record d (item_id it)).
  assert (Hb' : ids_below d').
  { destruct Hb as [Hi Hm]; split; [|exact Hm].
    intros it' Hin'; apply filter_In in Hin' as [Hin' _]; apply Hi; exact Hin'. }
  assert (Hj : (item_id it < next_item_id d')%nat) by (apply (proj1 Hb), Hin).
  assert (Ha : forall it', In it' (items d') -> item_id it' <> item_id it).
  { intros it' Hin' E; apply filter_In in Hin' as [_ Hf].
    rewrite E, Nat.eqb_refl in Hf; discriminate Hf. }
  destruct (run_id_retired os d' (item_id it) Hb' Hj Ha) as [Hgone Hkeep].
  split; [reflexivity|]; split; [exact Hkeep|].
  intros limit rs [sorted [P [_ ->]]] r Hr.
  apply in_firstn_in, (Permutation_in _ (Permutation_sym P)) in Hr.
  unfold join_rows in Hr; apply in_flat_map in Hr as [m [Hm Hr]].
  apply in_map_iff in Hr as [it' [<- Hit']].
  apply filter_In in Hit' as [Hit' Heq].
  assert (Ek : mv_item_id m = item_id it').
  { destruct (mv_item_id m) as [k|k]; simpl in Heq; [|discriminate Heq].
    apply Nat.eqb_eq in Heq; rewrite Heq; reflexivity. }
  exists m, it'; split; [exact Hm|]; split; [exact Hit'|]; split; [exact Ek|].
  split; [|reflexivity].
  rewrite Ek; intros E; injection E as E; apply (Hgone it' Hit'); exact E.
Qed.

Lemma deleted_item_history_hidden_witness :
  let pre := [OpCreate true "ITM-0001" "Widget" "Tools" 1 5 0 "" 0;
              OpAdjust 1 10 "PURCHASE" "Acme" "" 1] in
  In (mkItem 1 "ITM-0001" "Widget" "Tools" 1 5 10 "") (items (run empty_db pre)) /\
  movements (delete_item_record (run empty_db pre) 1) =
    movements (run empty_db pre).
Proof.
  cbv zeta; split; [vm_compute; left; reflexivity|].
  apply (proj1 (deleted_item_history_hidden
    [OpCreate true "ITM-0001" "Widget" "Tools" 1 5 0 "" 0;
     OpAdjust 1 10 "PURCHASE" "Acme" "" 1]
    (mkItem 1 "ITM-0001" "Widget" "Tools" 1 5 10 "")
    [OpCreate true "ITM-0002" "Gadget" "Tools" 1 5 0 "" 2]
    ltac:(vm_compute; left; reflexivity))).
Defined.

(** ** C1 *)

(** C1 fails on the create flow, by the numpy id it logs under: from every
    database the sessions reach, creating an item with a new code, a
    non-empty name and an initial quantity [q > 0] leaves the new item with
    quantity [q] while the movements whose [item_id] is its id sum to 0 (the
    INITIAL movement holds the BLOB of [new_item["id"]]), so the ledger
    invariant no longer holds. *)
Theorem create_flow_initial_unreferenced os code nm cat price ms qty descr now :
  code_exists (run empty_db os) code = false -> String.eqb code "" = false ->
  String.eqb nm "" = false -> (0 < qty)%nat ->
  let d := run empty_db os in
  let d' := fst (create_flow d true code nm cat price ms qty descr now) in
  In (mkItem (next_item_id d) code nm cat price ms (Z.of_nat qty) descr)
     (items d') /\
  ledger_sum d' (next_item_id d) = 0 /\
  ~ ledger_consistent d'.
Proof.
  intros E Hc Hn Hq; cbv zeta; set (d := run empty_db os) in *.
  assert (Hb : ids_below d) by (apply run_ids_below, ids_below_empty).
  destruct (create_item d code nm cat price ms (Z.of_nat qty) descr)
    as [d1 r] eqn:C.
  pose proof (create_item_found _ _ _ _ _ _ _ _ _ _ C) as Hfound.
  unfold create_item in C; rewrite E in C; inversion C; subst; clear C.
  simpl in Hfound; specialize (Hfound eq_refl).
  unfold create_flow, create_flow_commits, create_item; simpl negb.
  rewrite Hc, Hn, E; simpl orb; cbv iota beta.
  pose proof Hq as Hq'; apply Nat.ltb_lt in Hq'; rewrite Hq', Hfound; simpl.
  set (new := mkItem (next_item_id d) code nm cat price ms (Z.of_nat qty) descr).
  assert (Hin : In new (items d ++ [new])) by (apply in_or_app; right; left; reflexivity).
  assert (H0 : ledger_sum (log_stock_movement
                 (mkDb (items d ++ [new]) (movements d) (S (next_item_id d))
                    (next_mv_id d))
                 (SqlInt64Blob (next_item_id d)) "INITIAL" (Z.of_nat qty) "SYSTEM"
                 "Initial stock" now) (next_item_id d) = 0).
  { rewrite ledger_sum_log; simpl id_matches; cbv iota.
    pose proof (ledger_sum_fresh d Hb) as F.
    unfold ledger_sum in *; simpl in *; lia. }
  split; [exact Hin|]; split; [exact H0|].
  intros Hcons; unfold ledger_consistent in Hcons; rewrite Forall_forall in Hcons.
  specialize (Hcons new Hin); simpl in Hcons; rewrite H0 in Hcons; lia.
Qed.

Lemma create_flow_initial_unreferenced_witness :
  ~ ledger_consistent
      (fst (create_flow empty_db true "ITM-0001" "Widget" "Tools" 1 5 3 "" 0)).
Proof.
  exact (proj2 (proj2 (create_flow_initial_unreferenced [] "ITM-0001" "Widget"
           "Tools" 1 5 3 "" 0 eq_refl eq_refl eq_refl (ltac:(lia) : (0 < 3)%nat)))).
Defined.

(** * Further properties of the code *)

(** ** Invariants of the item database across sessions *)

Lemma nodup_map_filter {A B} (key : A -> B) (keep : A -> bool) :
  forall rows, NoDup (map key rows) -> NoDup (map key (filter keep rows)).
Proof.
  intros rows; induction rows as [|r rows IH]; intros Hnd; [constructor|].
  simpl in Hnd; apply NoDup_cons_iff in Hnd as [Hfresh Htail].
  simpl; case (keep r); [simpl; apply NoDup_cons_iff; split|]; auto.
  rewrite in_map_iff; intros [r' [Ek Hr']].
  rewrite filter_In in Hr'; apply Hfresh; rewrite <- Ek.
  apply in_map, (proj1 Hr').
Qed.

Lemma nodup_map_snoc {A B} (f : A -> B) (l : list A) (x : A) :
  NoDup (map f l) -> ~ In (f x) (map f l) -> NoDup (map f (l ++ [x])).
Proof.
  intros H Hn; rewrite map_app; simpl.
  apply (Permutation_NoDup (Permutation_cons_append (map f l) (f x))).
  constructor; assumption.
Qed.

Lemma create_flow_cases d admin code nm cat price ms qty descr now :
  let d' := fst (create_flow d admin code nm cat price ms qty descr now) in
  d' = d \/
  (code_exists d code = false /\
   items d' = items d ++
     [mkItem (next_item_id d) code nm cat price ms (Z.of_nat qty) descr]).
Proof.
  cbv zeta; unfold create_flow, create_flow_commits.
  destruct (negb admin); [left; reflexivity|].
  destruct (String.eqb code "" || String.eqb nm ""); [left; reflexivity|].
  unfold create_item; destruct (code_exists d code) eqn:E; [left; reflexivity|].
  simpl; right; split; [reflexivity|].
  destruct (0 <? qty)%nat; [|reflexivity].
  destruct (find_item_by_code _ code); reflexivity.
Qed.

Lemma map_set_row_quantity {B} (f : item -> B) i q l :
  (forall it, f (set_row_quantity i q it) = f it) ->
  map f (map (set_row_quantity i q) l) = map f l.
Proof. intros H; rewrite map_map; apply map_ext; exact H. Qed.

Definition keys_unique (d : db) : Prop :=
  NoDup (map item_id (items d)) /\ NoDup (map item_code (items d)).

Lemma exec_keys_unique d o :
  ids_below d -> keys_unique d -> keys_unique (exec d o).
Proof.
  intros Hb [Hid Hcd]; destruct o; simpl.
  - destruct (create_flow_cases d admin code nm cat price ms qty descr now)
      as [E|[Ec Ei]]; [rewrite E; split; assumption|].
    unfold keys_unique; rewrite Ei; split; apply nodup_map_snoc; try assumption; simpl.
    + intros Hin; apply in_map_iff in Hin as [it [Heq Hin]].
      pose proof (proj1 Hb it Hin); lia.
    + intros Hin; apply in_map_iff in Hin as [it [Heq Hin]].
      assert (T : code_exists d code = true).
      { apply existsb_exists; exists it; split; [exact Hin|].
        apply String.eqb_eq; exact Heq. }
      congruence.
  - destruct (adjust_stock_shape d i delta_qty mt pty nt now)
      as [E|[row [_ [_ [Ei _]]]]]; [rewrite E; split; assumption|].
    unfold keys_unique; rewrite Ei; split; rewrite map_set_row_quantity; try assumption;
      intros it; unfold set_row_quantity;
      destruct (id_matches _ (item_id it)); reflexivity.
  - unfold keys_unique; simpl; rewrite !map_map; split.
    + erewrite map_ext; [exact Hid|]; intros it; apply update_row_id.
    + erewrite map_ext; [exact Hcd|]; intros it; unfold update_row;
        destruct (Nat.eqb (item_id it) i); reflexivity.
  - split; simpl; apply nodup_map_filter; assumption.
Qed.

(** Every database the sessions reach from an empty one has distinct item ids
    and distinct item codes. *)
Theorem reachable_keys_unique os :
  NoDup (map item_id (items (run empty_db os))) /\
  NoDup (map item_code (items (run empty_db os))).
Proof.
  assert (G : forall d, ids_below d -> keys_unique d ->
                keys_unique (run d os)).
  { induction os as [|o os IH]; intros d Hb Hk; simpl; [exact Hk|].
    apply IH; [apply (exec_frame d o Hb) | apply exec_keys_unique; assumption]. }
  apply G; [apply ids_below_empty | split; constructor].
Qed.

(** Every database the sessions reach from an empty one has no item with a
    negative quantity. *)
Theorem reachable_stock_nonneg os it :
  In it (items (run empty_db os)) -> 0 <= quantity it.
Proof. apply reachable_nonneg. Qed.

Lemma reachable_stock_nonneg_witness :
  In (mkItem 1 "ITM-0001" "Widget" "Tools" 1 5 7 "")
     (items (run empty_db
        [OpCreate true "ITM-0001" "Widget" "Tools" 1 5 10 "" 0;
         OpAdjust 1 (-3) "DISPATCH" "Cust1" "" 1;
         OpAdjust 1 (-12) "DISPATCH" "Cust1" "" 2])) /\
  0 <= 7.
Proof.
  split; [vm_compute; left; reflexivity|].
  apply (reachable_stock_nonneg
           [OpCreate true "ITM-0001" "Widget" "Tools" 1 5 10 "" 0;
            OpAdjust 1 (-3) "DISPATCH" "Cust1" "" 1;
            OpAdjust 1 (-12) "DISPATCH" "Cust1" "" 2]
           (mkItem 1 "ITM-0001" "Widget" "Tools" 1 5 7 "")).
  vm_compute; left; reflexivity.
Defined.

Lemma exec_movements_extend d o :
  exists ms, movements (exec d o) = movements d ++ ms.
Proof.
  destruct o; simpl.
  - unfold create_flow, create_flow_commits.
    destruct (negb admin); [exists []; rewrite app_nil_r; reflexivity|].
    destruct (String.eqb code "" || String.eqb nm "");
      [exists []; rewrite app_nil_r; reflexivity|].
    unfold create_item; destruct (code_exists d code);
      [exists []; rewrite app_nil_r; reflexivity|]; simpl.
    destruct (0 <? qty)%nat; [|exists []; rewrite app_nil_r; reflexivity].
    destruct (find_item_by_code _ code); simpl;
      [eexists; reflexivity | exists []; rewrite app_nil_r; reflexivity].
  - unfold adjust_stock, adjust_stock_commits.
    destruct (find_item d i); [|exists []; rewrite app_nil_r; reflexivity].
    destruct (_ <? 0); [exists []; rewrite app_nil_r; reflexivity|].
    simpl; eexists; reflexivity.
  - exists []; rewrite app_nil_r; reflexivity.
  - exists []; rewrite app_nil_r; reflexivity.
Qed.

(** The ledger is append-only: whatever the sessions do, the movements of a
    database stay, in order, at the front of the movements of every later
    database. *)
Theorem ledger_append_only d os :
  exists ms, movements (run d os) = movements d ++ ms.
Proof.
  revert d; induction os as [|o os IH]; intros d; simpl.
  - exists []; rewrite app_nil_r; reflexivity.
  - destruct (exec_movements_extend d o) as [ms1 E1].
    destruct (IH (exec d o)) as [ms2 E2].
    exists (ms1 ++ ms2); rewrite E2, E1, app_assoc; reflexivity.
Qed.

(** ** The movement log query *)

(** [LIMIT ?]: a result of [get_stock_movements] has exactly
    [min limit n] rows, [n] the number of movements whose item exists. *)
Theorem get_stock_movements_length d limit rs :
  get_stock_movements d limit rs ->
  List.length rs = Nat.min limit (List.length (join_rows d)).
Proof.
  intros [sorted [P [_ ->]]]; rewrite length_firstn.
  rewrite (Permutation_length P); reflexivity.
Qed.

Lemma get_stock_movements_length_witness :
  let d := run empty_db
             [OpCreate true "ITM-0001" "Widget" "Tools" 1 5 0 "" 0;
              OpAdjust 1 10 "PURCHASE" "Acme" "" 1;
              OpAdjust 1 (-3) "DISPATCH" "Cust1" "" 2;
              OpAdjust 1 5 "PURCHASE" "Acme" "" 3] in
  get_stock_movements d 2 (firstn 2 (rev (join_rows d))) /\
  List.length (firstn 2 (rev (join_rows d))) = 2%nat.
Proof.
  cbv zeta.
  set (d := run empty_db
             [OpCreate true "ITM-0001" "Widget" "Tools" 1 5 0 "" 0;
              OpAdjust 1 10 "PURCHASE" "Acme" "" 1;
              OpAdjust 1 (-3) "DISPATCH" "Cust1" "" 2;
              OpAdjust 1 5 "PURCHASE" "Acme" "" 3]).
  assert (H : get_stock_movements d 2 (firstn 2 (rev (join_rows d)))).
  { exists (rev (join_rows d)).
    split; [apply Permutation_rev|]; split; [|reflexivity].
    vm_compute; repeat constructor. }
  split; [exact H|].
  rewrite (get_stock_movements_length _ _ _ H); vm_compute; reflexivity.
Defined.

(** ** Stock increase and dispatch *)

Lemma find_pred_false {A} (l : list A) : find (fun _ => false) l = None.
Proof. induction l as [|x l IH]; [reflexivity | exact IH]. Qed.

Lemma filter_pred_false {A} (l : list A) : filter (fun _ => false) l = [].
Proof. induction l as [|x l IH]; [reflexivity | exact IH]. Qed.

(** Called with a numpy id, [adjust_stock] finds no row: it reports
    "Item not found" and commits nothing. *)
Lemma adjust_stock_numpy_id d n delta mt pty nt now :
  adjust_stock_commits d (SqlInt64Blob n) delta mt pty nt now =
    ([], (false, "Item not found")) /\
  adjust_stock d (SqlInt64Blob n) delta mt pty nt now =
    (d, (false, "Item not found")).
Proof.
  unfold adjust_stock, adjust_stock_commits, find_item; simpl.
  rewrite find_pred_false; split; reflexivity.
Qed.

Lemma find_item_by_code_exists d code :
  code_exists d code = true -> exists row, find_item_by_code d code = Some row.
Proof.
  unfold code_exists, find_item_by_code; intros H.
  destruct (find _ (items d)) as [row|] eqn:F; [exists row; reflexivity|].
  apply existsb_exists in H as [it [Hin Hc]].
  exfalso; apply (find_none _ _ F) in Hin; congruence.
Qed.

(** "Apply Stock Increase" never changes the database: the id it passes is
    a numpy.int64, which matches no row.  With admin rights, a positive
    quantity and an existing code, it reports "Item not found". *)
Theorem stock_increase_flow_no_write d admin code delta mt pty nt now :
  fst (stock_increase_flow d admin code delta mt pty nt now) = d /\
  (admin = true -> (0 < delta)%nat -> code_exists d code = true ->
   snd (stock_increase_flow d admin code delta mt pty nt now) =
     Some (false, "Item not found")).
Proof.
  unfold stock_increase_flow; split.
  - destruct (find_item_by_code d code) as [row|]; [|reflexivity].
    destruct (negb admin); [reflexivity|].
    destruct (delta <=? 0)%nat; [reflexivity|].
    rewrite (proj2 (adjust_stock_numpy_id d (item_id row) (Z.of_nat delta)
                      mt pty nt now)); reflexivity.
  - intros -> Hd Hc.
    destruct (find_item_by_code_exists d code Hc) as [row F]; rewrite F.
    simpl negb; cbv iota.
    assert (Hz : (delta <=? 0)%nat = false) by (apply Nat.leb_gt; exact Hd).
    rewrite Hz.
    rewrite (proj2 (adjust_stock_numpy_id d (item_id row) (Z.of_nat delta)
                      mt pty nt now)); reflexivity.
Qed.

Lemma stock_increase_flow_no_write_witness :
  let d := run empty_db [OpCreate true "ITM-0001" "Widget" "Tools" 1 5 2 "" 0] in
  code_exists d "ITM-0001" = true /\
  snd (stock_increase_flow d true "ITM-0001" 10 "PURCHASE" "Acme" "" 1) =
    Some (false, "Item not found").
Proof.
  cbv zeta; split; [vm_compute; reflexivity|].
  apply (proj2 (stock_increase_flow_no_write
    (run empty_db [OpCreate true "ITM-0001" "Widget" "Tools" 1 5 2 "" 0])
    true "ITM-0001" 10 "PURCHASE" "Acme" "" 1) eq_refl ltac:(lia)).
  vm_compute; reflexivity.
Defined.

(** "Dispatch Item" never changes the database: for an item code of the
    table it reports "Item not found", whatever the quantity. *)
Theorem dispatch_flow_no_write d code qty customer reference nt now :
  fst (dispatch_flow d code qty customer reference nt now) = d /\
  (code_exists d code = true ->
   snd (dispatch_flow d code qty customer reference nt now) =
     Some (false, "Item not found")).
Proof.
  unfold dispatch_flow; split.
  - destruct (find_item_by_code d code) as [row|]; [|reflexivity].
    rewrite (proj2 (adjust_stock_numpy_id d (item_id row) (- Z.of_nat qty)
                      "DISPATCH" customer
                      (String.append reference (String.append " - " nt)) now)).
    reflexivity.
  - intros Hc; destruct (find_item_by_code_exists d code Hc) as [row F].
    rewrite F.
    rewrite (proj2 (adjust_stock_numpy_id d (item_id row) (- Z.of_nat qty)
                      "DISPATCH" customer
                      (String.append reference (String.append " - " nt)) now)).
    reflexivity.
Qed.

Lemma dispatch_flow_no_write_witness :
  let d := run empty_db [OpCreate true "ITM-0001" "Widget" "Tools" 1 5 10 "" 0] in
  code_exists d "ITM-0001" = true /\
  dispatch_flow d "ITM-0001" 3 "Cust1" "INV-7" "Dispatch / Sales" 1 =
    (d, Some (false, "Item not found")).
Proof.
  cbv zeta; split; [vm_compute; reflexivity|].
  set (d := run empty_db [OpCreate true "ITM-0001" "Widget" "Tools" 1 5 10 "" 0]).
  destruct (dispatch_flow_no_write d "ITM-0001" 3 "Cust1" "INV-7"
              "Dispatch / Sales" 1) as [E1 E2].
  rewrite (surjective_pairing (dispatch_flow _ _ _ _ _ _ _)), E1, E2;
    [reflexivity | vm_compute; reflexivity].
Defined.

(** ** What the create flow adds to the movement log *)

Lemma join_rows_new_item d it extra n1 n2 :
  ids_below d -> item_id it = next_item_id d ->
  Forall (fun m => exists n, mv_item_id m = SqlInt64Blob n) extra ->
  join_rows (mkDb (items d ++ [it]) (movements d ++ extra) n1 n2) = join_rows d.
Proof.
  intros [_ Hm] Hid Hx; unfold join_rows; simpl.
  rewrite flat_map_app.
  assert (Ex : flat_map (fun m => map (mk_row m)
                 (filter (fun x => id_matches (mv_item_id m) (item_id x))
                    (items d ++ [it]))) extra = []).
  { induction Hx as [|m l [n E] _ IH]; [reflexivity|].
    simpl; rewrite IH, E; simpl; rewrite filter_pred_false; reflexivity. }
  rewrite Ex, app_nil_r.
  induction (movements d) as [|m ms IH]; [reflexivity|]; simpl.
  rewrite IH by (intros m' Hm'; apply Hm; right; exact Hm').
  f_equal; rewrite filter_app; simpl.
  assert (N : id_matches (mv_item_id m) (item_id it) = false).
  { specialize (Hm m (or_introl eq_refl)); rewrite Hid.
    destruct (mv_item_id m) as [k|k]; simpl; [apply Nat.eqb_neq; lia | reflexivity]. }
  rewrite N, app_nil_r; reflexivity.
Qed.

(** Creating an item never adds a row to the stock movement log: from every
    database the sessions reach, the joined movement rows after the create
    flow are those before it (the INITIAL movement joins no item). *)
Theorem create_flow_log_unchanged os admin code nm cat price ms qty descr now :
  let d := run empty_db os in
  join_rows (fst (create_flow d admin code nm cat price ms qty descr now)) =
    join_rows d.
Proof.
  cbv zeta; set (d := run empty_db os).
  assert (Hb : ids_below d) by (apply run_ids_below, ids_below_empty).
  unfold create_flow, create_flow_commits.
  destruct (negb admin); [reflexivity|].
  destruct (String.eqb code "" || String.eqb nm ""); [reflexivity|].
  destruct (create_item d code nm cat price ms (Z.of_nat qty) descr)
    as [d1 r] eqn:C.
  pose proof (create_item_found _ _ _ _ _ _ _ _ _ _ C) as Hfound.
  unfold create_item in C.
  destruct (code_exists d code); inversion C; subst; clear C; [reflexivity|].
  simpl in Hfound; specialize (Hfound eq_refl).
  destruct (0 <? qty)%nat.
  - rewrite Hfound; simpl; unfold log_stock_movement; simpl.
    apply join_rows_new_item; [exact Hb | reflexivity |].
    constructor; [eexists; reflexivity | constructor].
  - simpl.
    pose proof (join_rows_new_item d
      (mkItem (next_item_id d) code nm cat price ms (Z.of_nat qty) descr) []
      (S (next_item_id d)) (next_mv_id d) Hb eq_refl (Forall_nil _)) as L.
    rewrite app_nil_r in L; exact L.
Qed.

(** ** Users *)

Lemma nodup_key_same {A B} (f : A -> B) (l : list A) a b :
  NoDup (map f l) -> In a l -> In b l -> f a = f b -> a = b.
Proof.
  induction l as [|x l IH]; simpl; intros N Ha Hb E; [destruct Ha|].
  inversion N as [|? ? Hn Hl]; subst.
  destruct Ha as [<-|Ha], Hb as [<-|Hb]; try reflexivity.
  - exfalso; apply Hn; rewrite E; apply in_map; exact Hb.
  - exfalso; apply Hn; rewrite <- E; apply in_map; exact Ha.
  - apply IH; assumption.
Qed.

Section PasswordProofs.

Variable hash_password : string -> string.

(** Registering a taken username fails with "Username already exists" and
    leaves the users table as it was. *)
Theorem add_user_duplicate u r pw rl :
  In r (users u) ->
  add_user hash_password u (username r) pw rl =
    (u, (false, "Username already exists")).
Proof.
  intros Hin; unfold add_user.
  replace (existsb _ (users u)) with true; [reflexivity|].
  symmetry; apply existsb_exists; exists r; split; [exact Hin|].
  apply String.eqb_refl.
Qed.

(** Round trip: after a successful registration (any role, "admin"
    included), logging in with the same username and password returns the
    new row's id, username and role. *)
Theorem add_user_login u nm pw rl :
  fst (snd (add_user hash_password u nm pw rl)) = true ->
  login_user hash_password (fst (add_user hash_password u nm pw rl)) nm pw =
    Some (next_user_id u, nm, rl).
Proof.
  unfold add_user; destruct (existsb _ (users u)) eqn:E; simpl;
    [discriminate|]; intros _.
  unfold login_user; simpl.
  rewrite find_app_none.
  - simpl; rewrite !String.eqb_refl; reflexivity.
  - apply find_none_of_existsb.
    apply not_true_iff_false; intros T; apply existsb_exists in T as [x [Hx Hf]].
    apply andb_prop in Hf as [Hf _].
    apply not_true_iff_false in E; apply E, existsb_exists.
    exists x; split; assumption.
Qed.

(** After an admin resets a user's password, with distinct usernames,
    that user logs in exactly with the passwords whose hash is the hash of
    the new one. *)
Theorem reset_password_login u r new_pw q :
  NoDup (map username (users u)) -> In r (users u) ->
  login_user hash_password (reset_user_password hash_password u (user_id r) new_pw) (username r) q =
    if String.eqb (hash_password q) (hash_password new_pw)
    then Some (user_id r, username r, role r) else None.
Proof.
  intros N Hin; unfold login_user, reset_user_password; simpl.
  set (g := fun x => if Nat.eqb (user_id x) (user_id r)
                     then mkUser (user_id x) (username x)
                                 (hash_password new_pw) (role x)
                     else x).
  set (p := fun x => andb (String.eqb (username x) (username r))
                          (String.eqb (password x) (hash_password q))).
  assert (Gr : g r = mkUser (user_id r) (username r) (hash_password new_pw) (role r))
    by (unfold g; rewrite Nat.eqb_refl; reflexivity).
  destruct (find p (map g (users u))) as [x|] eqn:F.
  - apply find_some in F as [Hx Px].
    apply in_map_iff in Hx as [y [<- Hy]].
    unfold p in Px; apply andb_prop in Px as [Pu Pp].
    assert (Uy : username (g y) = username y)
      by (unfold g; destruct (Nat.eqb (user_id y) (user_id r)); reflexivity).
    apply String.eqb_eq in Pu; rewrite Uy in Pu.
    rewrite (nodup_key_same username _ y r N Hy Hin Pu) in *.
    rewrite Gr in Pp; simpl in Pp; apply String.eqb_eq in Pp.
    rewrite Pp, String.eqb_refl, Gr; reflexivity.
  - destruct (String.eqb_spec (hash_password q) (hash_password new_pw))
      as [Hq|Hq]; [|reflexivity].
    exfalso.
    pose proof (find_none _ _ F (g r) (in_map g _ r Hin)) as Pr.
    unfold p in Pr; rewrite Gr in Pr; simpl in Pr.
    rewrite String.eqb_refl, Hq, String.eqb_refl in Pr; discriminate Pr.
Qed.

(** Changing a user's role does not change who can log in, and the next
    login reports the new role. *)
Theorem update_role_login u nm pw uid nm' rl new_role :
  login_user hash_password u nm pw = Some (uid, nm', rl) ->
  login_user hash_password (update_user_role u uid new_role) nm pw = Some (uid, nm', new_role).
Proof.
  unfold login_user, update_user_role; simpl.
  induction (users u) as [|x l IH]; simpl; [discriminate|].
  destruct (Nat.eqb_spec (user_id x) uid) as [E|E]; simpl.
  - destruct (String.eqb (username x) nm && String.eqb (password x) (hash_password pw));
      simpl; [intros H; injection H as _ <- _; rewrite E; reflexivity | exact IH].
  - destruct (String.eqb (username x) nm && String.eqb (password x) (hash_password pw));
      simpl; [intros H; injection H as ?; congruence | exact IH].
Qed.

(** With distinct usernames, a deleted user can no longer log in, whatever
    the password. *)
Theorem delete_user_login u r q :
  NoDup (map username (users u)) -> In r (users u) ->
  login_user hash_password (delete_user u (user_id r)) (username r) q = None.
Proof.
  intros N Hin; unfold login_user, delete_user; simpl.
  destruct (find _ _) as [x|] eqn:F; [|reflexivity].
  apply find_some in F as [Hx Px].
  apply filter_In in Hx as [Hx Hk].
  apply andb_prop in Px as [Pu _]; apply String.eqb_eq in Pu.
  rewrite (nodup_key_same username _ x r N Hx Hin Pu), Nat.eqb_refl in Hk.
  discriminate Hk.
Qed.

(** The startup seeding of [create_tables]: on a users table with no admin
    and no user called "admin", it adds the user admin with password admin
    and role admin, who can then log in. *)
Theorem create_tables_seeds_admin u :
  existsb (fun r => String.eqb (role r) "admin") (users u) = false ->
  existsb (fun r => String.eqb (username r) "admin") (users u) = false ->
  login_user hash_password (create_tables_users hash_password u) "admin" "admin" =
    Some (next_user_id u, "admin", "admin").
Proof.
  intros Ha Hn; unfold create_tables_users; rewrite Ha, Hn.
  unfold login_user; simpl; rewrite find_app_none;
    [simpl; rewrite !String.eqb_refl; reflexivity|].
  apply find_none_of_existsb.
  apply not_true_iff_false; intros T; apply existsb_exists in T as [x [Hx Hf]].
  apply andb_prop in Hf as [Hf _].
  apply not_true_iff_false in Hn; apply Hn, existsb_exists.
  exists x; split; assumption.
Qed.

(** The seeding uses INSERT OR IGNORE: when no user has role admin but a
    user called "admin" exists, no row is inserted (only the id counter
    moves on) and the application still has no admin. *)
Theorem create_tables_no_admin_when_name_taken u :
  existsb (fun r => String.eqb (role r) "admin") (users u) = false ->
  existsb (fun r => String.eqb (username r) "admin") (users u) = true ->
  users (create_tables_users hash_password u) = users u /\
  next_user_id (create_tables_users hash_password u) = S (next_user_id u) /\
  forall r, In r (users (create_tables_users hash_password u)) -> role r <> "admin".
Proof.
  intros Ha Hn; unfold create_tables_users; rewrite Ha, Hn; simpl.
  split; [reflexivity|]; split; [reflexivity|]; intros r Hin E.
  apply not_true_iff_false in Ha; apply Ha, existsb_exists.
  exists r; split; [exact Hin | apply String.eqb_eq; exact E].
Qed.

Lemma user_exec_nodup u o :
  NoDup (map username (users u)) ->
  NoDup (map username (users (user_exec hash_password u o))).
Proof.
  intros N; destruct o; simpl.
  - unfold add_user; destruct (existsb _ (users u)) eqn:E; [exact N|].
    simpl; apply nodup_map_snoc; [exact N|]; simpl.
    intros Hin; apply in_map_iff in Hin as [x [Hx Hin]].
    apply not_true_iff_false in E; apply E, existsb_exists.
    exists x; split; [exact Hin | apply String.eqb_eq; exact Hx].
  - rewrite map_map; erewrite map_ext; [exact N|].
    intros x; destruct (Nat.eqb (user_id x) uid); reflexivity.
  - unfold reset_user_password; simpl.
    rewrite map_map; erewrite map_ext; [exact N|].
    intros x; destruct (Nat.eqb (user_id x) uid); reflexivity.
  - apply nodup_map_filter; exact N.
  - unfold create_tables_users.
    destruct (existsb (fun r => String.eqb (role r) "admin") (users u));
      [exact N|].
    destruct (existsb (fun r => String.eqb (username r) "admin") (users u)) eqn:E;
      [simpl; exact N|].
    simpl; apply nodup_map_snoc; [exact N|]; simpl.
    intros Hin; apply in_map_iff in Hin as [x [Hx Hin]].
    apply not_true_iff_false in E; apply E, existsb_exists.
    exists x; split; [exact Hin | apply String.eqb_eq; exact Hx].
Qed.

(** Usernames stay distinct in every users table reachable from an empty
    one through registration, role changes, password resets, deletions and
    [create_tables]. *)
Theorem reachable_usernames_unique os :
  NoDup (map username (users (user_run hash_password empty_users os))).
Proof.
  unfold user_run.
  assert (G : forall u, NoDup (map username (users u)) ->
                NoDup (map username (users (fold_left (user_exec hash_password) os u)))).
  { induction os as [|o os IH]; intros u N; simpl; [exact N|].
    apply IH, user_exec_nodup, N. }
  apply G; constructor.
Qed.

End PasswordProofs.

Lemma add_user_duplicate_witness :
  let h := fun s : string => String.append "sha256:" s in
  let u := fst (add_user h empty_users "alice" "pw1" "user") in
  In (mkUser 1 "alice" "sha256:pw1" "user") (users u) /\
  add_user h u "alice" "other" "admin" = (u, (false, "Username already exists")).
Proof.
  cbv zeta; split; [simpl; left; reflexivity|].
  apply (add_user_duplicate (fun s : string => String.append "sha256:" s)
           (fst (add_user (fun s : string => String.append "sha256:" s)
                   empty_users "alice" "pw1" "user"))
           (mkUser 1 "alice" "sha256:pw1" "user")).
  simpl; left; reflexivity.
Defined.

Lemma add_user_login_witness :
  let h := fun s : string => String.append "sha256:" s in
  let u := fst (add_user h empty_users "alice" "pw1" "user") in
  login_user h (fst (add_user h u "bob" "pw2" "admin")) "bob" "pw2" =
    Some (2%nat, "bob", "admin").
Proof.
  cbv zeta.
  apply (add_user_login (fun s : string => String.append "sha256:" s)
           (fst (add_user (fun s : string => String.append "sha256:" s)
                   empty_users "alice" "pw1" "user")) "bob" "pw2" "admin").
  vm_compute; reflexivity.
Defined.

Lemma reset_password_login_witness :
  let h := fun s : string => String.append "sha256:" s in
  let u := fst (add_user h empty_users "alice" "pw1" "user") in
  login_user h (reset_user_password h u 1 "new") "alice" "new" =
    Some (1%nat, "alice", "user") /\
  login_user h (reset_user_password h u 1 "new") "alice" "pw1" = None.
Proof.
  cbv zeta; split;
  [ refine (eq_trans (reset_password_login
              (fun s : string => String.append "sha256:" s)
              (fst (add_user (fun s : string => String.append "sha256:" s)
                      empty_users "alice" "pw1" "user"))
              (mkUser 1 "alice" "sha256:pw1" "user") "new" "new" _ _) _)
  | refine (eq_trans (reset_password_login
              (fun s : string => String.append "sha256:" s)
              (fst (add_user (fun s : string => String.append "sha256:" s)
                      empty_users "alice" "pw1" "user"))
              (mkUser 1 "alice" "sha256:pw1" "user") "new" "pw1" _ _) _) ];
  try (vm_compute; reflexivity);
  try (simpl; left; reflexivity);
  simpl; repeat constructor; intros [].
Defined.

Lemma update_role_login_witness :
  let h := fun s : string => String.append "sha256:" s in
  let u := fst (add_user h empty_users "alice" "pw1" "user") in
  login_user h (update_user_role u 1 "admin") "alice" "pw1" =
    Some (1%nat, "alice", "admin").
Proof.
  cbv zeta.
  apply (update_role_login (fun s : string => String.append "sha256:" s)
           (fst (add_user (fun s : string => String.append "sha256:" s)
                   empty_users "alice" "pw1" "user"))
           "alice" "pw1" 1 "alice" "user" "admin").
  vm_compute; reflexivity.
Defined.

Lemma delete_user_login_witness :
  let h := fun s : string => String.append "sha256:" s in
  let u := fst (add_user h empty_users "alice" "pw1" "user") in
  login_user h (delete_user u 1) "alice" "pw1" = None.
Proof.
  cbv zeta.
  apply (delete_user_login (fun s : string => String.append "sha256:" s)
           (fst (add_user (fun s : string => String.append "sha256:" s)
                   empty_users "alice" "pw1" "user"))
           (mkUser 1 "alice" "sha256:pw1" "user") "pw1");
    [simpl; repeat constructor; intros [] | simpl; left; reflexivity].
Defined.

Lemma create_tables_seeds_admin_witness :
  let h := fun s : string => String.append "sha256:" s in
  let u := fst (add_user h empty_users "alice" "pw1" "user") in
  login_user h (create_tables_users h u) "admin" "admin" =
    Some (2%nat, "admin", "admin").
Proof.
  cbv zeta.
  apply (create_tables_seeds_admin (fun s : string => String.append "sha256:" s)
           (fst (add_user (fun s : string => String.append "sha256:" s)
                   empty_users "alice" "pw1" "user")));
    vm_compute; reflexivity.
Defined.

Lemma create_tables_no_admin_when_name_taken_witness :
  let h := fun s : string => String.append "sha256:" s in
  let u := fst (add_user h empty_users "admin" "secret" "user") in
  users (create_tables_users h u) = users u.
Proof.
  cbv zeta.
  apply (create_tables_no_admin_when_name_taken
           (fun s : string => String.append "sha256:" s)
           (fst (add_user (fun s : string => String.append "sha256:" s)
                   empty_users "admin" "secret" "user")));
    vm_compute; reflexivity.
Defined.

(** ** Suppliers *)

(** Creating a supplier under a taken name fails with "Supplier name must
    be unique" and leaves the table as it was. *)
Theorem create_supplier_duplicate s r cp ph em ad pc nt rt :
  In r (suppliers s) ->
  create_supplier s (sname r) cp ph em ad pc nt rt =
    (s, (false, "Supplier name must be unique")).
Proof.
  intros Hin; unfold create_supplier.
  replace (existsb _ (suppliers s)) with true; [reflexivity|].
  symmetry; apply existsb_exists; exists r; split; [exact Hin|].
  apply String.eqb_refl.
Qed.

Lemma create_supplier_duplicate_witness :
  let s := fst (create_supplier (mkSuppliers [] 1) "Acme" "Ann" "" "" "" "" "" 4) in
  create_supplier s "Acme" "Bob" "" "" "" "" "" 3 =
    (s, (false, "Supplier name must be unique")).
Proof.
  cbv zeta.
  apply (create_supplier_duplicate
           (fst (create_supplier (mkSuppliers [] 1) "Acme" "Ann" "" "" "" "" "" 4))
           (mkSupplier 1 "Acme" "Ann" "" "" "" "" "" 4)).
  simpl; left; reflexivity.
Defined.

(** Editing a supplier so that it takes the name of another supplier makes
    [update_supplier] raise the uncaught [IntegrityError]: nothing is
    written. *)
Theorem update_supplier_name_clash s r r' cp ph em ad pc nt rt :
  In r (suppliers s) -> In r' (suppliers s) ->
  supplier_id r' <> supplier_id r ->
  update_supplier s (supplier_id r) (sname r') cp ph em ad pc nt rt = None.
Proof.
  intros Hr Hr' Hne; unfold update_supplier.
  replace (existsb (fun x => Nat.eqb (supplier_id x) (supplier_id r)) _)
    with true.
  - replace (existsb _ (suppliers s)) with true; [reflexivity|].
    symmetry; apply existsb_exists; exists r'; split; [exact Hr'|].
    apply Nat.eqb_neq in Hne; rewrite Hne, String.eqb_refl; reflexivity.
  - symmetry; apply existsb_exists; exists r; split; [exact Hr|].
    apply Nat.eqb_refl.
Qed.

Lemma update_supplier_name_clash_witness :
  let s := fst (create_supplier
                  (fst (create_supplier (mkSuppliers [] 1)
                          "Acme" "Ann" "" "" "" "" "" 4))
                  "Bolt" "Bob" "" "" "" "" "" 3) in
  update_supplier s 2 "Acme" "Bob" "" "" "" "" "" 3 = None.
Proof.
  cbv zeta.
  apply (update_supplier_name_clash
           (fst (create_supplier
                  (fst (create_supplier (mkSuppliers [] 1)
                          "Acme" "Ann" "" "" "" "" "" 4))
                  "Bolt" "Bob" "" "" "" "" "" 3))
           (mkSupplier 2 "Bolt" "Bob" "" "" "" "" "" 3)
           (mkSupplier 1 "Acme" "Ann" "" "" "" "" "" 4));
    [simpl; right; left; reflexivity | simpl; left; reflexivity | discriminate].
Defined.

(** Without a name clash, [update_supplier] overwrites every field but the
    id of the edited supplier, leaves the other rows alone and adds or
    removes no row. *)
Theorem update_supplier_ok s sid nm cp ph em ad pc nt rt :
  (forall r, In r (suppliers s) -> supplier_id r <> sid -> sname r <> nm) ->
  exists s', update_supplier s sid nm cp ph em ad pc nt rt = Some s' /\
    List.length (suppliers s') = List.length (suppliers s) /\
    forall k r, nth_error (suppliers s) k = Some r ->
      nth_error (suppliers s') k =
        Some (if Nat.eqb (supplier_id r) sid
              then mkSupplier sid nm cp ph em ad pc nt rt else r).
Proof.
  intros Hok; unfold update_supplier.
  replace (existsb (fun r => andb (negb (Nat.eqb (supplier_id r) sid))
                                  (String.eqb (sname r) nm)) (suppliers s))
    with false.
  - rewrite andb_false_r; eexists; split; [reflexivity|]; simpl.
    split; [apply length_map|].
    intros k r H; rewrite nth_error_map, H; simpl.
    destruct (Nat.eqb_spec (supplier_id r) sid) as [->|]; reflexivity.
  - symmetry; apply not_true_iff_false; intros T.
    apply existsb_exists in T as [x [Hx Hf]].
    apply andb_prop in Hf as [Hi Hn].
    apply negb_true_iff, Nat.eqb_neq in Hi; apply String.eqb_eq in Hn.
    exact (Hok x Hx Hi Hn).
Qed.

Lemma update_supplier_ok_witness :
  let s := fst (create_supplier (mkSuppliers [] 1) "Acme" "Ann" "" "" "" "" "" 4) in
  update_supplier s 1 "Acme Ltd" "Ann" "555" "" "" "" "" 5 =
    Some (mkSuppliers [mkSupplier 1 "Acme Ltd" "Ann" "555" "" "" "" "" 5] 2).
Proof.
  cbv zeta.
  destruct (update_supplier_ok
    (fst (create_supplier (mkSuppliers [] 1) "Acme" "Ann" "" "" "" "" "" 4))
    1 "Acme Ltd" "Ann" "555" "" "" "" "" 5) as [s' [E _]].
  - intros r [<-|[]] Hne; simpl in Hne; contradiction Hne; reflexivity.
  - clear E; vm_compute; reflexivity.
Defined.
